(** * Citra: the OpenGL presentation layer and the RomFS file stub

    A shallow embedding of
    - [src/video_core/renderer_opengl/renderer_opengl.cpp] (with the
      [TextureInfo] structure of [renderer_opengl.h]), and
    - [src/core/file_sys/file_romfs.cpp].

    The C++ code talks to three collaborators: the OpenGL backend, the
    emulated memory / register store and the host window.  Calls to them are
    recorded, in program order, in a trace of [Event]s; the objects the code
    mutates through references ([TextureInfo&], the renderer's members) are
    passed explicitly and returned.  A computation either completes or stops
    at a failed [ASSERT] / at [UNIMPLEMENTED]; the trace emitted up to the
    stop is kept.  Logging ([LOG_TRACE], and [GL_DEBUG()], which queries
    [glGetError] and logs) changes none of the state described here and is
    left out of the trace. *)

From Stdlib Require Import ZArith QArith Qabs List Bool Lia.
From Stdlib Require Floats.SpecFloat.
Import ListNotations.
Open Scope Z_scope.

(** ** Machine integers *)

(** Conversion to an unsigned integer type of [bits] bits. *)
Definition wrap_unsigned (bits z : Z) : Z := z mod 2 ^ bits.

(** Conversion to a two's complement signed integer type of [bits] bits. *)
Definition wrap_signed (bits z : Z) : Z :=
  (z + 2 ^ (bits - 1)) mod 2 ^ bits - 2 ^ (bits - 1).

Definition u8 (z : Z) : Z := wrap_unsigned 8 z.
Definition u32 (z : Z) : Z := wrap_unsigned 32 z.
(** [int], [GLint] and [GLsizei] are 32-bit signed. *)
Definition int (z : Z) : Z := wrap_signed 32 z.
Definition GLint (z : Z) : Z := wrap_signed 32 z.
Definition GLsizei (z : Z) : Z := wrap_signed 32 z.

(** Width of [size_t] on the host: 32 or 64 on the supported platforms. *)
Class HostABI : Type := { size_t_bits : Z }.

Definition size_t {abi : HostABI} (z : Z) : Z := wrap_unsigned size_t_bits z.
Definition SIZE_MAX {abi : HostABI} : Z := 2 ^ size_t_bits - 1.

(** ** Emulated hardware registers *)

Module GPU.

(** [GPU::Regs::PixelFormat].  The enumeration declares five formats; its
    underlying integer type admits further codes, which [Unlisted] stands
    for ([code] only tells such values apart). *)
Inductive PixelFormat : Type :=
| RGBA8
| RGB8
| RGB565
| RGB5A1
| RGBA4
| Unlisted (code : N).

Definition PixelFormat_eqb (a b : PixelFormat) : bool :=
  match a, b with
  | RGBA8, RGBA8 | RGB8, RGB8 | RGB565, RGB565
  | RGB5A1, RGB5A1 | RGBA4, RGBA4 => true
  | Unlisted m, Unlisted n => N.eqb m n
  | _, _ => false
  end.

(** One of the five formats the enumeration declares. *)
Definition supported (f : PixelFormat) : bool :=
  match f with Unlisted _ => false | _ => true end.

(** [GPU::Regs::FramebufferConfig], the fields the renderer reads. *)
Record FramebufferConfig : Type := {
  width : Z;
  height : Z;
  address_left1 : Z;
  address_left2 : Z;
  color_format : PixelFormat;
  active_fb : Z;
  stride : Z
}.

End GPU.

Module LCD.

(** [LCD::Regs::ColorFill], decoded. *)
Record ColorFill : Type := {
  is_enabled : bool;
  color_r : Z;
  color_g : Z;
  color_b : Z
}.

(** The two registers [SwapBuffers] reads, [LCD_REG_INDEX(color_fill_top)]
    and [LCD_REG_INDEX(color_fill_bottom)]. *)
Inductive Reg : Type := color_fill_top | color_fill_bottom.

End LCD.

(** ** The OpenGL interface *)

(** The [GLenum] constants the renderer uses. *)
Inductive GLenum : Type :=
| GL_TEXTURE_2D
| GL_RGBA
| GL_RGB
| GL_BGR
| GL_UNSIGNED_BYTE
| GL_UNSIGNED_INT_8_8_8_8
| GL_UNSIGNED_SHORT_5_6_5
| GL_UNSIGNED_SHORT_5_5_5_1
| GL_UNSIGNED_SHORT_4_4_4_4
| GL_UNPACK_ROW_LENGTH
| GL_COLOR_BUFFER_BIT
| GL_TEXTURE0
| GL_ARRAY_BUFFER
| GL_TRIANGLE_STRIP.

(** Number of colour components a transfer format carries. *)
Definition components (format : GLenum) : option Z :=
  match format with
  | GL_RGBA => Some 4
  | GL_RGB | GL_BGR => Some 3
  | _ => None
  end.

(** Bits of one pixel in client memory for a transfer (format, type) pair:
    a packed type holds the whole pixel in one word, [GL_UNSIGNED_BYTE]
    holds one component per byte. *)
Definition bits_per_pixel (format type : GLenum) : option Z :=
  match type with
  | GL_UNSIGNED_INT_8_8_8_8 => Some 32
  | GL_UNSIGNED_SHORT_5_6_5
  | GL_UNSIGNED_SHORT_5_5_5_1
  | GL_UNSIGNED_SHORT_4_4_4_4 => Some 16
  | GL_UNSIGNED_BYTE => option_map (Z.mul 8) (components format)
  | _ => None
  end.

(** [GLfloat] values are kept as the expressions the code builds;
    [Binary32.eval] below gives the binary32 value of an expression. *)
Inductive GLfloat : Type :=
| FLit (n : Z)                 (* the literal [n.f] *)
| FCast (n : Z)                (* [(float) n] for an integer [n] *)
| FNeg (a : GLfloat)
| FAdd (a b : GLfloat)
| FDiv (a b : GLfloat).

(** The [data] argument of a texture upload. *)
Inductive pixels : Type :=
| nullptr
| local_array (bytes : list Z)   (* a stack array with these contents *)
| host_pointer (p : Z).          (* a pointer into emulated memory *)

(** [ScreenRectVertex]: [position[2]] and [tex_coord[2]]. *)
Record ScreenRectVertex : Type := {
  position : GLfloat * GLfloat;
  tex_coord : GLfloat * GLfloat
}.

(** Calls to the collaborators, as they appear in the trace. *)
Inductive Event : Type :=
| glBindTexture (target : GLenum) (texture : Z)
| glPixelStorei (pname : GLenum) (param : Z)
| glTexImage2D (target : GLenum) (level : Z) (internalformat : GLenum)
    (w h border : Z) (format type : GLenum) (data : pixels)
| glTexSubImage2D (target : GLenum) (level xoffset yoffset w h : Z)
    (format type : GLenum) (data : pixels)
| glViewport (x y w h : Z)
| glClear (mask : GLenum)
| glUseProgram (program : Z)
| glUniformMatrix3x2fv (location count : Z) (transpose : bool)
    (value : list GLfloat)
| glActiveTexture (unit : GLenum)
| glUniform1i (location v : Z)
| glBindBuffer (target : GLenum) (buffer : Z)
| glBufferSubData (target : GLenum) (offset : Z)
    (data : list ScreenRectVertex)
| glDrawArrays (mode : GLenum) (first count : Z)
| Window_MakeCurrent
| Window_GetFramebufferLayout
| Window_PollEvents
| Window_SwapBuffers
| Profiler_FinishFrame
| Aggregator_AddFrame
| Profiler_BeginFrame
| LCD_Read (reg : LCD.Reg)
| Memory_PhysicalToVirtualAddress (paddr : Z)
| Memory_GetPointer (vaddr : Z).

(** ** Computations: a trace, and a result or a stop *)

Inductive failure : Type :=
| Unimplemented          (* [UNIMPLEMENTED()] was reached *)
| AssertionFailed        (* an [ASSERT] did not hold *)
| DivisionByZero.        (* integer division by zero (undefined in C++) *)

Inductive result (A : Type) : Type :=
| Done (a : A)
| Stop (why : failure).
Arguments Done {A} a.
Arguments Stop {A} why.

Definition M (A : Type) : Type := (result A * list Event)%type.

Definition ret {A : Type} (a : A) : M A := (Done a, []).

Definition bind {A B : Type} (m : M A) (k : A -> M B) : M B :=
  match m with
  | (Done a, t) => let (r, t') := k a in (r, t ++ t')
  | (Stop why, t) => (Stop why, t)
  end.

Definition call (e : Event) : M unit := (Done tt, [e]).

Definition stop {A : Type} (why : failure) : M A := (Stop why, []).

Notation "x <- m ;; k" := (bind m (fun x => k))
  (at level 61, m at next level, right associativity).
Notation "m ;; k" := (bind m (fun _ => k))
  (at level 61, right associativity).

Definition outcome {A : Type} (m : M A) : result A := fst m.
Definition trace {A : Type} (m : M A) : list Event := snd m.

(** Modelled from the spec: the macros [UNIMPLEMENTED()] and [ASSERT(c)]
    (common/assert.h is not among the sources).  Section 4.1 makes an
    unrecognised format an "unimplemented" hard stop that returns no
    descriptor; section 7 makes the stride check a contract check that a
    malformed configuration does not pass. *)
Definition UNIMPLEMENTED {A : Type} : M A := stop Unimplemented.
Definition ASSERT (c : bool) : M unit :=
  if c then ret tt else stop AssertionFailed.

(** ** Renderer state *)

(** [RendererOpenGL::TextureInfo]. *)
Record TextureInfo : Type := {
  handle : Z;
  width : Z;
  height : Z;
  format : GPU.PixelFormat;
  gl_format : GLenum;
  gl_type : GLenum
}.

Definition set_width (t : TextureInfo) (v : Z) : TextureInfo :=
  {| handle := handle t; width := v; height := height t;
     format := format t; gl_format := gl_format t; gl_type := gl_type t |}.
Definition set_height (t : TextureInfo) (v : Z) : TextureInfo :=
  {| handle := handle t; width := width t; height := v;
     format := format t; gl_format := gl_format t; gl_type := gl_type t |}.
Definition set_format (t : TextureInfo) (v : GPU.PixelFormat) : TextureInfo :=
  {| handle := handle t; width := width t; height := height t;
     format := v; gl_format := gl_format t; gl_type := gl_type t |}.
Definition set_gl_format (t : TextureInfo) (v : GLenum) : TextureInfo :=
  {| handle := handle t; width := width t; height := height t;
     format := format t; gl_format := v; gl_type := gl_type t |}.
Definition set_gl_type (t : TextureInfo) (v : GLenum) : TextureInfo :=
  {| handle := handle t; width := width t; height := height t;
     format := format t; gl_format := gl_format t; gl_type := v |}.

(** ** [ConfigureFramebufferTexture] *)

(** The [switch]: the internal format and the texture with its transfer
    descriptor set. *)
Definition select_transfer (texture : TextureInfo) (format : GPU.PixelFormat)
  : M (GLenum * TextureInfo) :=
  match format with
  | GPU.RGBA8 =>
      ret (GL_RGBA,
           set_gl_type (set_gl_format texture GL_RGBA) GL_UNSIGNED_INT_8_8_8_8)
  | GPU.RGB8 =>
      ret (GL_RGB,
           set_gl_type (set_gl_format texture GL_BGR) GL_UNSIGNED_BYTE)
  | GPU.RGB565 =>
      ret (GL_RGB,
           set_gl_type (set_gl_format texture GL_RGB) GL_UNSIGNED_SHORT_5_6_5)
  | GPU.RGB5A1 =>
      ret (GL_RGBA,
           set_gl_type (set_gl_format texture GL_RGBA) GL_UNSIGNED_SHORT_5_5_5_1)
  | GPU.RGBA4 =>
      ret (GL_RGBA,
           set_gl_type (set_gl_format texture GL_RGBA) GL_UNSIGNED_SHORT_4_4_4_4)
  | GPU.Unlisted _ => UNIMPLEMENTED
  end.

Definition ConfigureFramebufferTexture (texture : TextureInfo)
    (framebuffer : GPU.FramebufferConfig) : M TextureInfo :=
  let format := GPU.color_format framebuffer in
  let texture := set_format texture format in
  let texture := set_width texture (GLsizei (GPU.width framebuffer)) in
  let texture := set_height texture (GLsizei (GPU.height framebuffer)) in
  sel <- select_transfer texture format ;;
  let internal_format := fst sel in
  let texture := snd sel in
  call (glBindTexture GL_TEXTURE_2D (handle texture)) ;;
  call (glTexImage2D GL_TEXTURE_2D 0 internal_format
          (width texture) (height texture) 0
          (gl_format texture) (gl_type texture) nullptr) ;;
  ret texture.

(** ** Collaborators outside the renderer *)

Module MathUtil.

(** [MathUtil::Rectangle<unsigned>]. *)
Record Rectangle : Type := {
  left : Z;
  top : Z;
  right : Z;
  bottom : Z
}.

End MathUtil.

Module EmuWindow.

(** [EmuWindow::FramebufferLayout]. *)
Record FramebufferLayout : Type := {
  width : Z;
  height : Z;
  top_screen : MathUtil.Rectangle;
  bottom_screen : MathUtil.Rectangle
}.

End EmuWindow.

(** Functions of the repository the renderer calls and whose bodies are not
    among the sources: the address translation and pointer lookup of
    [Memory], [GPU::Regs::BytesPerPixel], and the extent accessors of
    [MathUtil::Rectangle]. *)
Class Collaborators : Type := {
  PhysicalToVirtualAddress : Z -> Z;
  GetPointer : Z -> Z;
  BytesPerPixel : GPU.PixelFormat -> Z;
  GetWidth : MathUtil.Rectangle -> Z;
  GetHeight : MathUtil.Rectangle -> Z
}.

(** What the register store and the window answer during one frame. *)
Record Frame : Type := {
  framebuffer_config : Z -> GPU.FramebufferConfig;
  lcd_regs : LCD.Reg -> LCD.ColorFill;
  framebuffer_layout : EmuWindow.FramebufferLayout
}.

(** ** [LoadFBToActiveGLTexture] *)

(** The physical address the upload reads from. *)
Definition active_address (framebuffer : GPU.FramebufferConfig) : Z :=
  if GPU.active_fb framebuffer =? 0
  then GPU.address_left1 framebuffer
  else GPU.address_left2 framebuffer.

(** [framebuffer.stride / bpp]: both operands are converted to [unsigned]. *)
Definition stride_in_pixels {abi : HostABI} (stride bpp : Z) : M Z :=
  if u32 bpp =? 0 then stop DivisionByZero
  else ret (size_t (u32 stride / u32 bpp)).

Definition LoadFBToActiveGLTexture {abi : HostABI} {ext : Collaborators}
    (framebuffer : GPU.FramebufferConfig) (texture : TextureInfo) : M unit :=
  call (Memory_PhysicalToVirtualAddress (active_address framebuffer)) ;;
  let framebuffer_vaddr :=
    PhysicalToVirtualAddress (active_address framebuffer) in
  call (Memory_GetPointer framebuffer_vaddr) ;;
  let framebuffer_data := GetPointer framebuffer_vaddr in
  let bpp := int (BytesPerPixel (GPU.color_format framebuffer)) in
  pixel_stride <- stride_in_pixels (GPU.stride framebuffer) bpp ;;
  ASSERT (size_t (pixel_stride * size_t bpp) =? size_t (GPU.stride framebuffer)) ;;
  ASSERT (size_t (pixel_stride mod size_t 4) =? 0) ;;
  call (glBindTexture GL_TEXTURE_2D (handle texture)) ;;
  call (glPixelStorei GL_UNPACK_ROW_LENGTH (GLint pixel_stride)) ;;
  call (glTexSubImage2D GL_TEXTURE_2D 0 0 0
          (GLsizei (GPU.width framebuffer)) (GLsizei (GPU.height framebuffer))
          (gl_format texture) (gl_type texture)
          (host_pointer framebuffer_data)) ;;
  call (glPixelStorei GL_UNPACK_ROW_LENGTH 0) ;;
  call (glBindTexture GL_TEXTURE_2D 0).

(** ** [LoadColorToActiveGLTexture] *)

Definition LoadColorToActiveGLTexture (color_r color_g color_b : Z)
    (texture : TextureInfo) : M unit :=
  call (glBindTexture GL_TEXTURE_2D (handle texture)) ;;
  let framebuffer_data := [color_r; color_g; color_b] in
  call (glTexImage2D GL_TEXTURE_2D 0 GL_RGB 1 1 0 GL_RGB GL_UNSIGNED_BYTE
          (local_array framebuffer_data)) ;;
  call (glBindTexture GL_TEXTURE_2D 0).

(** ** [MakeOrthographicMatrix], [DrawSingleScreenRotated], [DrawScreens] *)

(** The [std::array<GLfloat, 3*2>], element [k] at position [k]. *)
Definition MakeOrthographicMatrix (width height : GLfloat) : list GLfloat :=
  [ FDiv (FLit 2) width;  FLit 0;
    FLit 0;               FDiv (FNeg (FLit 2)) height;
    FNeg (FLit 1);        FLit 1 ].

(** The renderer's members that [SwapBuffers] reads or writes;
    [m_current_frame] is inherited from [RendererBase]. *)
Record RendererOpenGL : Type := {
  textures : TextureInfo * TextureInfo;
  m_current_frame : Z;
  vertex_buffer_handle : Z;
  program_id : Z;
  uniform_modelview_matrix : Z;
  uniform_color_texture : Z
}.

Definition set_textures (r : RendererOpenGL)
    (v : TextureInfo * TextureInfo) : RendererOpenGL :=
  {| textures := v; m_current_frame := m_current_frame r;
     vertex_buffer_handle := vertex_buffer_handle r;
     program_id := program_id r;
     uniform_modelview_matrix := uniform_modelview_matrix r;
     uniform_color_texture := uniform_color_texture r |}.

(** Modelled from the spec: the declaration of [m_current_frame]
    (video_core/renderer_base.h) is not among the sources; section 4.4 calls
    it a monotonic frame counter, so it is an integer that does not wrap. *)
Definition increment_current_frame (r : RendererOpenGL) : RendererOpenGL :=
  {| textures := textures r; m_current_frame := m_current_frame r + 1;
     vertex_buffer_handle := vertex_buffer_handle r;
     program_id := program_id r;
     uniform_modelview_matrix := uniform_modelview_matrix r;
     uniform_color_texture := uniform_color_texture r |}.

(** [textures[i]] for the two-element array. *)
Definition texture_at (i : Z) (ts : TextureInfo * TextureInfo) : TextureInfo :=
  if i =? 0 then fst ts else snd ts.
Definition set_texture_at (i : Z) (v : TextureInfo)
    (ts : TextureInfo * TextureInfo) : TextureInfo * TextureInfo :=
  if i =? 0 then (v, snd ts) else (fst ts, v).

Definition DrawSingleScreenRotated (r : RendererOpenGL) (texture : TextureInfo)
    (x y w h : GLfloat) : M unit :=
  let vertices :=
    [ {| position := (x, y);               tex_coord := (FLit 1, FLit 0) |};
      {| position := (FAdd x w, y);        tex_coord := (FLit 1, FLit 1) |};
      {| position := (x, FAdd y h);        tex_coord := (FLit 0, FLit 0) |};
      {| position := (FAdd x w, FAdd y h); tex_coord := (FLit 0, FLit 1) |} ] in
  call (glBindTexture GL_TEXTURE_2D (handle texture)) ;;
  call (glBindBuffer GL_ARRAY_BUFFER (vertex_buffer_handle r)) ;;
  call (glBufferSubData GL_ARRAY_BUFFER 0 vertices) ;;
  call (glDrawArrays GL_TRIANGLE_STRIP 0 4).

Definition DrawScreens {ext : Collaborators} (r : RendererOpenGL) (frame : Frame)
  : M RendererOpenGL :=
  call Window_GetFramebufferLayout ;;
  let layout := framebuffer_layout frame in
  call (glViewport 0 0 (GLsizei (EmuWindow.width layout))
                       (GLsizei (EmuWindow.height layout))) ;;
  call (glClear GL_COLOR_BUFFER_BIT) ;;
  call (glUseProgram (program_id r)) ;;
  let ortho_matrix :=
    MakeOrthographicMatrix (FCast (EmuWindow.width layout))
                           (FCast (EmuWindow.height layout)) in
  call (glUniformMatrix3x2fv (GLint (uniform_modelview_matrix r)) 1 false
          ortho_matrix) ;;
  call (glActiveTexture GL_TEXTURE0) ;;
  call (glUniform1i (GLint (uniform_color_texture r)) 0) ;;
  DrawSingleScreenRotated r (texture_at 0 (textures r))
    (FCast (MathUtil.left (EmuWindow.top_screen layout)))
    (FCast (MathUtil.top (EmuWindow.top_screen layout)))
    (FCast (GetWidth (EmuWindow.top_screen layout)))
    (FCast (GetHeight (EmuWindow.top_screen layout))) ;;
  DrawSingleScreenRotated r (texture_at 1 (textures r))
    (FCast (MathUtil.left (EmuWindow.bottom_screen layout)))
    (FCast (MathUtil.top (EmuWindow.bottom_screen layout)))
    (FCast (GetWidth (EmuWindow.bottom_screen layout)))
    (FCast (GetHeight (EmuWindow.bottom_screen layout))) ;;
  ret (increment_current_frame r).

(** ** [SwapBuffers] *)

(** The condition of the reallocation test (lines 98-100). *)
Definition texture_differs (texture : TextureInfo)
    (framebuffer : GPU.FramebufferConfig) : bool :=
  negb (width texture =? GLsizei (GPU.width framebuffer))
  || negb (height texture =? GLsizei (GPU.height framebuffer))
  || negb (GPU.PixelFormat_eqb (format texture) (GPU.color_format framebuffer)).

(** The reallocation test of [SwapBuffers] (lines 98-105), which the
    specification calls [ensureReady]. *)
Definition ensureReady (texture : TextureInfo)
    (framebuffer : GPU.FramebufferConfig) : M TextureInfo :=
  if texture_differs texture framebuffer
  then ConfigureFramebufferTexture texture framebuffer
  else ret texture.

(** The colour-fill register of screen [i]: [color_fill_top] for the main
    LCD (0), [color_fill_bottom] for the sub LCD. *)
Definition lcd_color_addr (i : Z) : LCD.Reg :=
  if i =? 0 then LCD.color_fill_top else LCD.color_fill_bottom.

(** The body of the loop over the two screens. *)
Definition SwapBuffers_screen {abi : HostABI} {ext : Collaborators} (frame : Frame)
    (ts : TextureInfo * TextureInfo) (i : Z) : M (TextureInfo * TextureInfo) :=
  let framebuffer := framebuffer_config frame i in
  call (LCD_Read (lcd_color_addr i)) ;;
  let color_fill := lcd_regs frame (lcd_color_addr i) in
  if LCD.is_enabled color_fill then
    LoadColorToActiveGLTexture (u8 (LCD.color_r color_fill))
      (u8 (LCD.color_g color_fill)) (u8 (LCD.color_b color_fill))
      (texture_at i ts) ;;
    ret (set_texture_at i (set_height (set_width (texture_at i ts) 1) 1) ts)
  else
    texture <- ensureReady (texture_at i ts) framebuffer ;;
    LoadFBToActiveGLTexture framebuffer texture ;;
    ret (set_texture_at i
           (set_height
              (set_width texture (GLsizei (GPU.width framebuffer)))
              (GLsizei (GPU.height framebuffer))) ts).

(** [for (int i : {...}) body]. *)
Fixpoint for_each {S : Type} (body : S -> Z -> M S) (range : list Z) (s : S)
  : M S :=
  match range with
  | [] => ret s
  | i :: rest => s' <- body s i ;; for_each body rest s'
  end.

Definition SwapBuffers {abi : HostABI} {ext : Collaborators} (r : RendererOpenGL)
    (frame : Frame) : M RendererOpenGL :=
  call Window_MakeCurrent ;;
  ts <- for_each (SwapBuffers_screen frame) [0; 1] (textures r) ;;
  r' <- DrawScreens (set_textures r ts) frame ;;
  call Profiler_FinishFrame ;;
  call Aggregator_AddFrame ;;
  call Window_PollEvents ;;
  call Window_SwapBuffers ;;
  call Profiler_BeginFrame ;;
  ret r'.

(** Consecutive frames, one [SwapBuffers] each. *)
Fixpoint present_frames {abi : HostABI} {ext : Collaborators} (r : RendererOpenGL)
    (frames : list Frame) : M RendererOpenGL :=
  match frames with
  | [] => ret r
  | frame :: rest => r' <- SwapBuffers r frame ;; present_frames r' rest
  end.

(** ** Backend state touched by the uploads *)

(** The part of the OpenGL context the upload functions change: the texture
    bound to [GL_TEXTURE_2D] and the [GL_UNPACK_ROW_LENGTH] pixel-store
    parameter (default 0; a negative value is rejected by the backend). *)
Record GLState : Type := {
  texture_binding_2d : Z;
  unpack_row_length : Z
}.

Definition gl_step (s : GLState) (e : Event) : GLState :=
  match e with
  | glBindTexture GL_TEXTURE_2D t =>
      {| texture_binding_2d := t; unpack_row_length := unpack_row_length s |}
  | glPixelStorei GL_UNPACK_ROW_LENGTH p =>
      if p <? 0 then s
      else {| texture_binding_2d := texture_binding_2d s;
              unpack_row_length := p |}
  | _ => s
  end.

Definition gl_run (s : GLState) (t : list Event) : GLState :=
  fold_left gl_step t s.

(** Number of texture storage allocations ([glTexImage2D]) in a trace. *)
Definition is_allocation (e : Event) : bool :=
  match e with glTexImage2D _ _ _ _ _ _ _ _ _ => true | _ => false end.
Definition allocations (t : list Event) : nat :=
  length (filter is_allocation t).

(** Texture uploads from emulated memory ([glTexSubImage2D]) in a trace. *)
Definition is_pixel_upload (e : Event) : bool :=
  match e with glTexSubImage2D _ _ _ _ _ _ _ _ _ => true | _ => false end.

(** The [data] pointer of a pixel upload. *)
Definition upload_source (e : Event) : option pixels :=
  match e with
  | glTexSubImage2D _ _ _ _ _ _ _ _ data => Some data
  | _ => None
  end.

(** ** [File_RomFS] *)

Module File_RomFS.

(** The methods are [const]; [File] is whatever state the object holds.
    Each returns its result, the buffer after the call and the object after
    the call. *)
Section Methods.
Context {abi : HostABI} {File : Type}.

Definition Read (this : File) (offset length : Z) (buffer : list Z)
  : Z * list Z * File :=
  (size_t (-1), buffer, this).

Definition Write (this : File) (offset length flush : Z) (buffer : list Z)
  : Z * list Z * File :=
  (size_t (-1), buffer, this).

Definition GetSize (this : File) : Z * File :=
  (size_t (-1), this).

Definition Close (this : File) : bool * File :=
  (false, this).

End Methods.

End File_RomFS.

(** ** Frames that pass the checks *)

(** A screen of a frame is well formed when its colour fill is enabled, or
    its framebuffer has one of the five formats, a positive [int] number of
    bytes per pixel, and a [u32] stride that is a multiple of the bytes per
    pixel with a pixel stride that is a multiple of 4. *)
Definition screen_well_formed {ext : Collaborators} (frame : Frame) (i : Z)
  : Prop :=
  LCD.is_enabled (lcd_regs frame (lcd_color_addr i)) = true
  \/ (GPU.supported (GPU.color_format (framebuffer_config frame i)) = true
      /\ 0 < BytesPerPixel (GPU.color_format (framebuffer_config frame i))
           < 2 ^ 31
      /\ 0 <= GPU.stride (framebuffer_config frame i) < 2 ^ 32
      /\ GPU.stride (framebuffer_config frame i)
           mod BytesPerPixel (GPU.color_format (framebuffer_config frame i))
         = 0
      /\ (GPU.stride (framebuffer_config frame i)
            / BytesPerPixel (GPU.color_format (framebuffer_config frame i)))
           mod 4 = 0).

Definition frame_well_formed {ext : Collaborators} (frame : Frame) : Prop :=
  screen_well_formed frame 0 /\ screen_well_formed frame 1.

(** ** The documented descriptor table *)

(** The table of section 4.1 of the specification, written from its words:
    the transfer format and component type for each of the five formats. *)
Definition documented_descriptor (f : GPU.PixelFormat)
  : option (GLenum * GLenum) :=
  match f with
  | GPU.RGBA8 => Some (GL_RGBA, GL_UNSIGNED_INT_8_8_8_8)
  | GPU.RGB8 => Some (GL_BGR, GL_UNSIGNED_BYTE)
  | GPU.RGB565 => Some (GL_RGB, GL_UNSIGNED_SHORT_5_6_5)
  | GPU.RGB5A1 => Some (GL_RGBA, GL_UNSIGNED_SHORT_5_5_5_1)
  | GPU.RGBA4 => Some (GL_RGBA, GL_UNSIGNED_SHORT_4_4_4_4)
  | GPU.Unlisted _ => None
  end.

(** The transfer descriptor a run of [ConfigureFramebufferTexture] returns,
    if it returns. *)
Definition returned_descriptor (m : M TextureInfo) : option (GLenum * GLenum) :=
  match outcome m with
  | Done t => Some (gl_format t, gl_type t)
  | Stop _ => None
  end.

(** ** Concrete collaborators, for examples *)

Definition host64 : HostABI := {| size_t_bits := 64 |}.
Definition host32 : HostABI := {| size_t_bits := 32 |}.

(** A collaborator set: a linear address translation, pointers equal to
    virtual addresses, four bytes per pixel for [RGBA8], three for [RGB8],
    two for the 16-bit formats. *)
Definition sample_collaborators : Collaborators := {|
  PhysicalToVirtualAddress := fun p => p + 4096;
  GetPointer := fun v => v;
  BytesPerPixel := fun f =>
    match f with
    | GPU.RGBA8 => 4
    | GPU.RGB8 => 3
    | GPU.RGB565 | GPU.RGB5A1 | GPU.RGBA4 => 2
    | GPU.Unlisted _ => 0
    end;
  GetWidth := fun r => MathUtil.right r - MathUtil.left r;
  GetHeight := fun r => MathUtil.bottom r - MathUtil.top r
|}.

Definition sample_texture : TextureInfo :=
  {| handle := 7; width := 240; height := 400; format := GPU.RGB565;
     gl_format := GL_RGB; gl_type := GL_UNSIGNED_SHORT_5_6_5 |}.

Definition sample_framebuffer (w h : Z) (f : GPU.PixelFormat) (stride : Z)
  : GPU.FramebufferConfig :=
  {| GPU.width := w; GPU.height := h;
     GPU.address_left1 := 402653184; GPU.address_left2 := 403038208;
     GPU.color_format := f; GPU.active_fb := 0; GPU.stride := stride |}.

Definition sample_layout : EmuWindow.FramebufferLayout :=
  {| EmuWindow.width := 400; EmuWindow.height := 480;
     EmuWindow.top_screen :=
       {| MathUtil.left := 0; MathUtil.top := 0;
          MathUtil.right := 400; MathUtil.bottom := 240 |};
     EmuWindow.bottom_screen :=
       {| MathUtil.left := 40; MathUtil.top := 240;
          MathUtil.right := 360; MathUtil.bottom := 480 |} |}.

Definition fill (enabled : bool) (r g b : Z) : LCD.ColorFill :=
  {| LCD.is_enabled := enabled; LCD.color_r := r; LCD.color_g := g;
     LCD.color_b := b |}.

(** A frame whose top screen shows a 240x400 RGB565 framebuffer and whose
    bottom screen is filled with one colour. *)
Definition sample_frame : Frame :=
  {| framebuffer_config := fun _ => sample_framebuffer 240 400 GPU.RGB565 480;
     lcd_regs := fun reg =>
       match reg with
       | LCD.color_fill_top => fill false 0 0 0
       | LCD.color_fill_bottom => fill true 255 128 0
       end;
     framebuffer_layout := sample_layout |}.

(** The frame after [sample_frame]: both screens show their framebuffer. *)
Definition next_frame : Frame :=
  {| framebuffer_config := fun _ => sample_framebuffer 240 400 GPU.RGB565 480;
     lcd_regs := fun _ => fill false 0 0 0;
     framebuffer_layout := sample_layout |}.

Definition sample_renderer : RendererOpenGL :=
  {| textures := (sample_texture, sample_texture); m_current_frame := 0;
     vertex_buffer_handle := 1; program_id := 2;
     uniform_modelview_matrix := 3; uniform_color_texture := 4 |}.

(** ** Binary32 evaluation of [GLfloat] expressions *)

(** [GLfloat] is IEEE 754 binary32: 24 bits of precision, infinities at
    exponent 128, operations rounded to nearest, ties to even.  [eval]
    computes the value of an expression as the C++ code does; [value] is
    the rational a finite result stands for. *)
Module Binary32.

Definition prec : Z := 24.
Definition emax : Z := 128.

(** An integer as a float: exact for the literals and for every integer of
    magnitude up to 2^24, rounded otherwise. *)
Definition of_int (n : Z) : SpecFloat.spec_float :=
  SpecFloat.binary_normalize prec emax n 0 false.

Fixpoint eval (f : GLfloat) : SpecFloat.spec_float :=
  match f with
  | FLit n => of_int n
  | FCast n => of_int n
  | FNeg a => SpecFloat.SFopp (eval a)
  | FAdd a b => SpecFloat.SFadd prec emax (eval a) (eval b)
  | FDiv a b => SpecFloat.SFdiv prec emax (eval a) (eval b)
  end.

Definition value (x : SpecFloat.spec_float) : option Q :=
  match x with
  | SpecFloat.S754_zero _ => Some 0%Q
  | SpecFloat.S754_finite s m e =>
      Some (inject_Z (if s then Z.neg m else Z.pos m) * Qpower 2 e)%Q
  | _ => None
  end.





End Binary32.

(** The six stored elements of a 3x2 matrix (element [k] at position [k],
    stored column by column as [glUniformMatrix3x2fv] with [GL_FALSE]
    reads them), listed row by row: (a, b, c; d, e, f). *)
Definition row_major {A : Type} (d : A) (m : list A) : list A :=
  [ nth 0 m d; nth 2 m d; nth 4 m d; nth 1 m d; nth 3 m d; nth 5 m d ].


(** ** Whole-frame bookkeeping *)

(** The stored transfer descriptor is the one the [switch] of
    [ConfigureFramebufferTexture] assigns to the stored format. *)
Definition descriptor_consistent (t : TextureInfo) : Prop :=
  exists internal_format : GLenum,
    select_transfer t (format t) = ret (internal_format, t).

(** Number of screens (0 and 1) whose colour fill is enabled in a frame. *)
Definition fill_screens (frame : Frame) : nat :=
  ((if LCD.is_enabled (lcd_regs frame (lcd_color_addr 0)) then 1 else 0)
   + (if LCD.is_enabled (lcd_regs frame (lcd_color_addr 1)) then 1 else 0))%nat.

(** The texture bound to [GL_TEXTURE_2D] at each [glDrawArrays] of a trace
    that starts in backend state [s]. *)
Fixpoint draw_bindings (s : GLState) (t : list Event) : list Z :=
  match t with
  | [] => []
  | e :: rest =>
      match e with
      | glDrawArrays _ _ _ => texture_binding_2d s :: draw_bindings (gl_step s e) rest
      | _ => draw_bindings (gl_step s e) rest
      end
  end.

(** Events that hand the frame to the window. *)
Definition is_present (e : Event) : bool :=
  match e with Window_SwapBuffers => true | _ => false end.

Definition is_draw (e : Event) : bool :=
  match e with glDrawArrays _ _ _ => true | _ => false end.

(** ** Texture images held by the backend *)

(** Whether the backend grants a request for a level-0 image of the given
    width and height.  A request is refused ([GL_INVALID_VALUE]) when a side
    exceeds [GL_MAX_TEXTURE_SIZE], and it can fail for lack of memory; the
    renderer only logs such an error, and a refused request leaves the
    texture with the image it had. *)
Class Backend : Type := { grants_image : Z -> Z -> bool }.

(** The binding of [GL_TEXTURE_2D] and, per texture name, the size of the
    level-0 image it holds, if any.  [glTexImage2D] on level 0 with border 0
    gives the bound texture an image of the requested size when the size is
    not negative and the backend grants it; [glTexSubImage2D] on level 0 is
    valid when the bound texture has an image and the region lies inside
    it. *)
Record TexState : Type := {
  bound_texture : Z;
  image_size : Z -> option (Z * Z)
}.

Definition tex_step {backend : Backend} (st : TexState) (e : Event)
  : TexState :=
  match e with
  | glBindTexture GL_TEXTURE_2D h =>
      {| bound_texture := h; image_size := image_size st |}
  | glTexImage2D GL_TEXTURE_2D 0 _ w h 0 _ _ _ =>
      if (0 <=? w) && (0 <=? h) && grants_image w h then
        {| bound_texture := bound_texture st;
           image_size := fun name =>
             if name =? bound_texture st then Some (w, h)
             else image_size st name |}
      else st
  | _ => st
  end.

Definition tex_run {backend : Backend} (st : TexState) (t : list Event)
  : TexState :=
  fold_left tex_step t st.

Definition upload_fits (st : TexState) (e : Event) : bool :=
  match e with
  | glTexSubImage2D GL_TEXTURE_2D 0 x y w h _ _ _ =>
      match image_size st (bound_texture st) with
      | Some (W, H) =>
          (0 <=? x) && (0 <=? y) && (0 <=? w) && (0 <=? h)
          && (x + w <=? W) && (y + h <=? H)
      | None => false
      end
  | glTexSubImage2D _ _ _ _ _ _ _ _ _ => false
  | _ => true
  end.

(** Every upload of the trace is valid at the moment it is issued. *)
Fixpoint uploads_fit {backend : Backend} (st : TexState) (t : list Event)
  : bool :=
  match t with
  | [] => true
  | e :: rest => upload_fits st e && uploads_fit (tex_step st e) rest
  end.

(** The stored width and height of a texture are the size of the image the
    backend holds for its handle. *)
Definition tracks_image (st : TexState) (t : TextureInfo) : Prop :=
  image_size st (handle t) = Some (width t, height t)
  /\ 0 <= width t /\ 0 <= height t.

(** ** Further sample data *)

(** A texture as a colour-fill frame leaves it. *)
Definition sample_filled_texture : TextureInfo :=
  {| handle := 7; width := 1; height := 1; format := GPU.RGB565;
     gl_format := GL_RGB; gl_type := GL_UNSIGNED_SHORT_5_6_5 |}.

Definition sample_bottom_texture : TextureInfo :=
  {| handle := 8; width := 1; height := 1; format := GPU.RGBA8;
     gl_format := GL_RGBA; gl_type := GL_UNSIGNED_INT_8_8_8_8 |}.

(** A renderer whose two textures have different handles. *)
Definition sample_two_screens : RendererOpenGL :=
  {| textures := (sample_filled_texture, sample_bottom_texture);
     m_current_frame := 0;
     vertex_buffer_handle := 1; program_id := 2;
     uniform_modelview_matrix := 3; uniform_color_texture := 4 |}.

(** The backend holding a 1x1 image for each of the two textures. *)
Definition sample_tex_state : TexState :=
  {| bound_texture := 0;
     image_size := fun name =>
       if (name =? 7) || (name =? 8) then Some (1, 1) else None |}.

Definition sample_gl_state : GLState :=
  {| texture_binding_2d := 0; unpack_row_length := 0 |}.

(** A frame whose bottom screen has a stride that is no multiple of the
    pixel size. *)
Definition misaligned_frame : Frame :=
  {| framebuffer_config := fun i =>
       if i =? 0 then sample_framebuffer 240 400 GPU.RGB565 480
       else sample_framebuffer 240 320 GPU.RGBA8 962;
     lcd_regs := fun _ => fill false 0 0 0;
     framebuffer_layout := sample_layout |}.

(** The two textures have different names, and for each the stored size is
    the size of the image the backend holds. *)
Definition images_tracked (st : TexState) (ts : TextureInfo * TextureInfo)
  : Prop :=
  handle (fst ts) <> handle (snd ts)
  /\ tracks_image st (fst ts)
  /\ tracks_image st (snd ts).

(** Every allocation a frame can request is granted: the 1x1 image of a
    colour-filled screen, and for a screen shown from its framebuffer an
    image of the framebuffer's size, which fits [GLsizei]. *)
Definition allocations_granted {backend : Backend} (frame : Frame) : Prop :=
  forall i : Z,
    if LCD.is_enabled (lcd_regs frame (lcd_color_addr i))
    then grants_image 1 1 = true
    else 0 <= GPU.width (framebuffer_config frame i) < 2 ^ 31
         /\ 0 <= GPU.height (framebuffer_config frame i) < 2 ^ 31
         /\ grants_image (GPU.width (framebuffer_config frame i))
                         (GPU.height (framebuffer_config frame i)) = true.

(** A backend whose largest texture side is 8192. *)
Definition sample_backend : Backend :=
  {| grants_image := fun w h => (w <=? 8192) && (h <=? 8192) |}.

(** A frame whose top screen is larger than [sample_backend] allows. *)
Definition oversized_frame : Frame :=
  {| framebuffer_config := fun _ =>
       sample_framebuffer 16384 16384 GPU.RGBA8 65536;
     lcd_regs := fun _ => fill false 0 0 0;
     framebuffer_layout := sample_layout |}.

(** * Properties *)

(** ** Arithmetic of the integer conversions *)

Lemma wrap_unsigned_small (bits z : Z) :
  0 <= z < 2 ^ bits -> wrap_unsigned bits z = z.
Proof. intros Hz. unfold wrap_unsigned. now apply Z.mod_small. Qed.

Lemma wrap_signed_small (z : Z) :
  0 <= z < 2 ^ 31 -> wrap_signed 32 z = z.
Proof.
  intros Hz. unfold wrap_signed.
  change (2 ^ (32 - 1)) with (2 ^ 31).
  rewrite Z.mod_small; [ring |].
  change (2 ^ 32) with (2 * 2 ^ 31). lia.
Qed.

Lemma size_t_small {abi : HostABI} (z : Z) :
  32 <= size_t_bits -> 0 <= z < 2 ^ 32 -> size_t z = z.
Proof.
  intros Hbits Hz. apply wrap_unsigned_small.
  assert (2 ^ 32 <= 2 ^ size_t_bits) by (apply Z.pow_le_mono_r; lia).
  lia.
Qed.

Lemma PixelFormat_eqb_eq (a b : GPU.PixelFormat) :
  GPU.PixelFormat_eqb a b = true <-> a = b.
Proof.
  split.
  - destruct a, b; simpl; try discriminate; try reflexivity.
    intros E. apply N.eqb_eq in E. now subst.
  - intros ->. destruct b; simpl; try reflexivity. apply N.eqb_refl.
Qed.

Lemma PixelFormat_eqb_refl (a : GPU.PixelFormat) :
  GPU.PixelFormat_eqb a a = true.
Proof. now apply PixelFormat_eqb_eq. Qed.

(** ** The pixel format converter *)

Example configure_rgb8 :
  ConfigureFramebufferTexture sample_texture
    (sample_framebuffer 240 400 GPU.RGB8 720)
  = (Done {| handle := 7; width := 240; height := 400; format := GPU.RGB8;
             gl_format := GL_BGR; gl_type := GL_UNSIGNED_BYTE |},
     [ glBindTexture GL_TEXTURE_2D 7;
       glTexImage2D GL_TEXTURE_2D 0 GL_RGB 240 400 0 GL_BGR GL_UNSIGNED_BYTE
         nullptr ]).
Proof. reflexivity. Qed.

Example configure_unlisted :
  ConfigureFramebufferTexture sample_texture
    (sample_framebuffer 240 400 (GPU.Unlisted 5) 720)
  = (Stop Unimplemented, []).
Proof. reflexivity. Qed.

(** C1.  For each of the five supported pixel formats
    [ConfigureFramebufferTexture] returns the transfer descriptor of the
    documented table: RGBA8 a 4-component transfer in one packed 32-bit word
    (8 bits per channel); RGB8 a 3-component transfer in reversed (BGR)
    order, one byte per component; RGB565 a 3-component packed 16-bit 5-6-5
    transfer in RGB order; RGB5A1 and RGBA4 4-component packed 16-bit
    transfers.  Any other format code reaches [UNIMPLEMENTED]: the run stops
    there, having made no backend call, and returns no descriptor. *)
Theorem ConfigureFramebufferTexture_descriptor
    (texture : TextureInfo) (framebuffer : GPU.FramebufferConfig) :
  returned_descriptor (ConfigureFramebufferTexture texture framebuffer)
    = documented_descriptor (GPU.color_format framebuffer)
  /\ match GPU.color_format framebuffer with
     | GPU.RGBA8 =>
         returned_descriptor (ConfigureFramebufferTexture texture framebuffer)
           = Some (GL_RGBA, GL_UNSIGNED_INT_8_8_8_8)
         /\ components GL_RGBA = Some 4
         /\ bits_per_pixel GL_RGBA GL_UNSIGNED_INT_8_8_8_8 = Some 32
     | GPU.RGB8 =>
         returned_descriptor (ConfigureFramebufferTexture texture framebuffer)
           = Some (GL_BGR, GL_UNSIGNED_BYTE)
         /\ components GL_BGR = Some 3
         /\ bits_per_pixel GL_BGR GL_UNSIGNED_BYTE = Some 24
     | GPU.RGB565 =>
         returned_descriptor (ConfigureFramebufferTexture texture framebuffer)
           = Some (GL_RGB, GL_UNSIGNED_SHORT_5_6_5)
         /\ components GL_RGB = Some 3
         /\ bits_per_pixel GL_RGB GL_UNSIGNED_SHORT_5_6_5 = Some 16
     | GPU.RGB5A1 =>
         returned_descriptor (ConfigureFramebufferTexture texture framebuffer)
           = Some (GL_RGBA, GL_UNSIGNED_SHORT_5_5_5_1)
         /\ components GL_RGBA = Some 4
         /\ bits_per_pixel GL_RGBA GL_UNSIGNED_SHORT_5_5_5_1 = Some 16
     | GPU.RGBA4 =>
         returned_descriptor (ConfigureFramebufferTexture texture framebuffer)
           = Some (GL_RGBA, GL_UNSIGNED_SHORT_4_4_4_4)
         /\ components GL_RGBA = Some 4
         /\ bits_per_pixel GL_RGBA GL_UNSIGNED_SHORT_4_4_4_4 = Some 16
     | GPU.Unlisted _ =>
         ConfigureFramebufferTexture texture framebuffer
           = (Stop Unimplemented, [])
     end.
Proof.
  unfold returned_descriptor, ConfigureFramebufferTexture.
  destruct (GPU.color_format framebuffer); repeat split; reflexivity.
Qed.

(** ** The reallocation test *)

Lemma texture_differs_false (texture : TextureInfo)
    (framebuffer : GPU.FramebufferConfig) :
  texture_differs texture framebuffer = false
  <-> width texture = GLsizei (GPU.width framebuffer)
      /\ height texture = GLsizei (GPU.height framebuffer)
      /\ format texture = GPU.color_format framebuffer.
Proof.
  unfold texture_differs.
  rewrite !orb_false_iff, !negb_false_iff, !Z.eqb_eq, PixelFormat_eqb_eq.
  tauto.
Qed.

Lemma texture_differs_true (texture : TextureInfo)
    (framebuffer : GPU.FramebufferConfig) :
  texture_differs texture framebuffer = true
  <-> (width texture, height texture, format texture)
      <> (GLsizei (GPU.width framebuffer), GLsizei (GPU.height framebuffer),
          GPU.color_format framebuffer).
Proof.
  rewrite <- not_false_iff_true, texture_differs_false.
  split.
  - intros Hne Heq. injection Heq as Hw Hh Hf. tauto.
  - intros Hne (Hw & Hh & Hf). apply Hne. now rewrite Hw, Hh, Hf.
Qed.

(** What [ConfigureFramebufferTexture] does for a supported format: the
    metadata is set from the framebuffer and exactly one allocation is
    issued, at the new size. *)
Lemma ConfigureFramebufferTexture_supported (texture : TextureInfo)
    (framebuffer : GPU.FramebufferConfig) :
  GPU.supported (GPU.color_format framebuffer) = true ->
  exists (internal_format : GLenum) (t1 : TextureInfo),
    outcome (ConfigureFramebufferTexture texture framebuffer) = Done t1
    /\ trace (ConfigureFramebufferTexture texture framebuffer)
       = [ glBindTexture GL_TEXTURE_2D (handle texture);
           glTexImage2D GL_TEXTURE_2D 0 internal_format
             (GLsizei (GPU.width framebuffer))
             (GLsizei (GPU.height framebuffer)) 0
             (gl_format t1) (gl_type t1) nullptr ]
    /\ handle t1 = handle texture
    /\ width t1 = GLsizei (GPU.width framebuffer)
    /\ height t1 = GLsizei (GPU.height framebuffer)
    /\ format t1 = GPU.color_format framebuffer.
Proof.
  unfold ConfigureFramebufferTexture.
  destruct (GPU.color_format framebuffer); simpl; try discriminate; intros _;
    eexists; eexists; (split; [reflexivity | repeat split]).
Qed.

Example ensureReady_new_size :
  ensureReady sample_texture (sample_framebuffer 400 240 GPU.RGBA8 1600)
  = (Done {| handle := 7; width := 400; height := 240; format := GPU.RGBA8;
             gl_format := GL_RGBA; gl_type := GL_UNSIGNED_INT_8_8_8_8 |},
     [ glBindTexture GL_TEXTURE_2D 7;
       glTexImage2D GL_TEXTURE_2D 0 GL_RGBA 400 240 0
         GL_RGBA GL_UNSIGNED_INT_8_8_8_8 nullptr ]).
Proof. reflexivity. Qed.

(** C2, as stated, fails in two ways.  When the stored texture already has
    the framebuffer's width, height and format, the first of two calls
    allocates nothing, so the two calls make no allocation at all instead of
    exactly one.  When the framebuffer's format is not one of the five, the
    configuration differs from the stored texture but the call stops at
    [UNIMPLEMENTED] without any allocation and without updated metadata. *)
Lemma ensureReady_first_call_counterexample :
  ensureReady sample_texture (sample_framebuffer 240 400 GPU.RGB565 480)
    = (Done sample_texture, [])
  /\ (allocations
        (trace (ensureReady sample_texture
                  (sample_framebuffer 240 400 GPU.RGB565 480)))
      + allocations
          (trace (ensureReady sample_texture
                    (sample_framebuffer 240 400 GPU.RGB565 480))))%nat
     = 0%nat
  /\ texture_differs sample_texture
       (sample_framebuffer 240 400 (GPU.Unlisted 5) 480) = true
  /\ ensureReady sample_texture
       (sample_framebuffer 240 400 (GPU.Unlisted 5) 480)
     = (Stop Unimplemented, []).
Proof. repeat split. Qed.

(** C2, amended.  Take a framebuffer configuration whose format is one of
    the five supported ones (and whose width and height fit [GLsizei]).
    [ensureReady] returns a texture whose stored (width, height, format) are
    the configuration's.  If the stored texture differed from the
    configuration in any of the three, this first call makes exactly one
    backend allocation; if it did not differ, the call makes none and
    changes nothing.  In both cases a second call with the same
    configuration makes no backend call at all and leaves the texture as it
    is. *)
Theorem ensureReady_idempotent
    (texture : TextureInfo) (framebuffer : GPU.FramebufferConfig) :
  GPU.supported (GPU.color_format framebuffer) = true ->
  0 <= GPU.width framebuffer < 2 ^ 31 ->
  0 <= GPU.height framebuffer < 2 ^ 31 ->
  exists t1 : TextureInfo,
    outcome (ensureReady texture framebuffer) = Done t1
    /\ (width t1, height t1, format t1)
       = (GPU.width framebuffer, GPU.height framebuffer,
          GPU.color_format framebuffer)
    /\ ((width texture, height texture, format texture)
        <> (GPU.width framebuffer, GPU.height framebuffer,
            GPU.color_format framebuffer) ->
        allocations (trace (ensureReady texture framebuffer)) = 1%nat)
    /\ ((width texture, height texture, format texture)
        = (GPU.width framebuffer, GPU.height framebuffer,
           GPU.color_format framebuffer) ->
        ensureReady texture framebuffer = (Done texture, []))
    /\ ensureReady t1 framebuffer = (Done t1, []).
Proof.
  intros Hsup Hw Hh.
  assert (Ew : GLsizei (GPU.width framebuffer) = GPU.width framebuffer)
    by now apply wrap_signed_small.
  assert (Eh : GLsizei (GPU.height framebuffer) = GPU.height framebuffer)
    by now apply wrap_signed_small.
  assert (Hsame : forall t,
            (width t, height t, format t)
            = (GPU.width framebuffer, GPU.height framebuffer,
               GPU.color_format framebuffer) ->
            ensureReady t framebuffer = (Done t, [])).
  { intros t Heq. injection Heq as Hw' Hh' Hf'.
    unfold ensureReady.
    replace (texture_differs t framebuffer) with false; [reflexivity |].
    symmetry. apply texture_differs_false. now rewrite Ew, Eh. }
  unfold ensureReady at 1 2.
  destruct (texture_differs texture framebuffer) eqn:Hd.
  - destruct (ConfigureFramebufferTexture_supported texture framebuffer Hsup)
      as (internal & t1 & Hout & Htr & _ & Hw1 & Hh1 & Hf1).
    rewrite Ew in Hw1. rewrite Eh in Hh1.
    exists t1. rewrite Htr.
    assert (Hmeta : (width t1, height t1, format t1)
                    = (GPU.width framebuffer, GPU.height framebuffer,
                       GPU.color_format framebuffer))
      by now rewrite Hw1, Hh1, Hf1.
    repeat split; auto.
  - apply texture_differs_false in Hd. destruct Hd as (Hw0 & Hh0 & Hf0).
    rewrite Ew in Hw0. rewrite Eh in Hh0.
    assert (Hmeta : (width texture, height texture, format texture)
                    = (GPU.width framebuffer, GPU.height framebuffer,
                       GPU.color_format framebuffer))
      by now rewrite Hw0, Hh0, Hf0.
    exists texture. simpl. repeat split; auto.
    intros Hne. contradiction.
Qed.

Lemma ensureReady_idempotent_witness :
  exists t1 : TextureInfo,
    outcome (ensureReady sample_texture
               (sample_framebuffer 400 240 GPU.RGBA8 1600)) = Done t1
    /\ (width t1, height t1, format t1) = (400, 240, GPU.RGBA8)
    /\ ((240, 400, GPU.RGB565) <> (400, 240, GPU.RGBA8) ->
        allocations
          (trace (ensureReady sample_texture
                    (sample_framebuffer 400 240 GPU.RGBA8 1600))) = 1%nat)
    /\ ((240, 400, GPU.RGB565) = (400, 240, GPU.RGBA8) ->
        ensureReady sample_texture (sample_framebuffer 400 240 GPU.RGBA8 1600)
        = (Done sample_texture, []))
    /\ ensureReady t1 (sample_framebuffer 400 240 GPU.RGBA8 1600)
       = (Done t1, []).
Proof.
  apply (ensureReady_idempotent sample_texture
           (sample_framebuffer 400 240 GPU.RGBA8 1600)).
  - reflexivity.
  - simpl; lia.
  - simpl; lia.
Defined.

(** ** The colour-fill branch *)

Lemma texture_at_set (i : Z) (v : TextureInfo) (ts : TextureInfo * TextureInfo) :
  texture_at i (set_texture_at i v ts) = v.
Proof. unfold texture_at, set_texture_at. now destruct (i =? 0). Qed.

Example color_fill_bottom_screen :
  SwapBuffers_screen (abi := host64) (ext := sample_collaborators)
    sample_frame (sample_texture, sample_texture) 1
  = (Done (sample_texture,
           {| handle := 7; width := 1; height := 1; format := GPU.RGB565;
              gl_format := GL_RGB; gl_type := GL_UNSIGNED_SHORT_5_6_5 |}),
     [ LCD_Read LCD.color_fill_bottom;
       glBindTexture GL_TEXTURE_2D 7;
       glTexImage2D GL_TEXTURE_2D 0 GL_RGB 1 1 0 GL_RGB GL_UNSIGNED_BYTE
         (local_array [255; 128; 0]);
       glBindTexture GL_TEXTURE_2D 0 ]).
Proof. reflexivity. Qed.

(** C3.  When the colour-fill register of a screen is enabled (its three
    channels being 8-bit values), the update of that screen, whatever the
    paired framebuffer configuration holds, completes with exactly these
    backend calls: bind the screen's texture, specify a 1x1 RGB image whose
    single pixel is the configured (r, g, b), unbind.  No pixel buffer is
    read or uploaded (no memory access, no [glTexSubImage2D]), and the
    stored texture ends with width 1 and height 1. *)
Theorem color_fill_overrides_framebuffer {abi : HostABI} {ext : Collaborators}
    (frame : Frame) (ts : TextureInfo * TextureInfo) (i : Z) :
  LCD.is_enabled (lcd_regs frame (lcd_color_addr i)) = true ->
  0 <= LCD.color_r (lcd_regs frame (lcd_color_addr i)) < 256 ->
  0 <= LCD.color_g (lcd_regs frame (lcd_color_addr i)) < 256 ->
  0 <= LCD.color_b (lcd_regs frame (lcd_color_addr i)) < 256 ->
  exists ts' : TextureInfo * TextureInfo,
    SwapBuffers_screen frame ts i
    = (Done ts',
       [ LCD_Read (lcd_color_addr i);
         glBindTexture GL_TEXTURE_2D (handle (texture_at i ts));
         glTexImage2D GL_TEXTURE_2D 0 GL_RGB 1 1 0 GL_RGB GL_UNSIGNED_BYTE
           (local_array
              [ LCD.color_r (lcd_regs frame (lcd_color_addr i));
                LCD.color_g (lcd_regs frame (lcd_color_addr i));
                LCD.color_b (lcd_regs frame (lcd_color_addr i)) ]);
         glBindTexture GL_TEXTURE_2D 0 ])
    /\ width (texture_at i ts') = 1
    /\ height (texture_at i ts') = 1
    /\ existsb is_pixel_upload (trace (SwapBuffers_screen frame ts i)) = false.
Proof.
  intros Hen Hr Hg Hb.
  unfold SwapBuffers_screen. rewrite Hen.
  unfold LoadColorToActiveGLTexture, u8.
  rewrite !wrap_unsigned_small by assumption.
  eexists. split; [reflexivity |].
  rewrite texture_at_set. repeat split.
Qed.

Lemma color_fill_overrides_framebuffer_witness :
  exists ts' : TextureInfo * TextureInfo,
    SwapBuffers_screen (abi := host64) (ext := sample_collaborators)
      sample_frame (sample_texture, sample_texture) 1
    = (Done ts',
       [ LCD_Read LCD.color_fill_bottom;
         glBindTexture GL_TEXTURE_2D 7;
         glTexImage2D GL_TEXTURE_2D 0 GL_RGB 1 1 0 GL_RGB GL_UNSIGNED_BYTE
           (local_array [255; 128; 0]);
         glBindTexture GL_TEXTURE_2D 0 ])
    /\ width (texture_at 1 ts') = 1
    /\ height (texture_at 1 ts') = 1
    /\ existsb is_pixel_upload
         (trace (SwapBuffers_screen (abi := host64) (ext := sample_collaborators)
                   sample_frame (sample_texture, sample_texture) 1)) = false.
Proof.
  apply (color_fill_overrides_framebuffer (abi := host64)
           (ext := sample_collaborators)
           sample_frame (sample_texture, sample_texture) 1).
  - reflexivity.
  - simpl; lia.
  - simpl; lia.
  - simpl; lia.
Defined.

(** ** The framebuffer upload *)

(** The two possible shapes of a run of [LoadFBToActiveGLTexture]: the
    address is resolved and the pointer fetched; then either a check stops
    the run before any backend call, or the five backend calls follow. *)
Lemma LoadFBToActiveGLTexture_cases {abi : HostABI} {ext : Collaborators}
    (framebuffer : GPU.FramebufferConfig) (texture : TextureInfo) :
  (exists pixel_stride : Z,
     LoadFBToActiveGLTexture framebuffer texture
     = (Done tt,
        [ Memory_PhysicalToVirtualAddress (active_address framebuffer);
          Memory_GetPointer
            (PhysicalToVirtualAddress (active_address framebuffer));
          glBindTexture GL_TEXTURE_2D (handle texture);
          glPixelStorei GL_UNPACK_ROW_LENGTH (GLint pixel_stride);
          glTexSubImage2D GL_TEXTURE_2D 0 0 0
            (GLsizei (GPU.width framebuffer))
            (GLsizei (GPU.height framebuffer))
            (gl_format texture) (gl_type texture)
            (host_pointer
               (GetPointer
                  (PhysicalToVirtualAddress (active_address framebuffer))));
          glPixelStorei GL_UNPACK_ROW_LENGTH 0;
          glBindTexture GL_TEXTURE_2D 0 ]))
  \/ (exists why : failure,
        LoadFBToActiveGLTexture framebuffer texture
        = (Stop why,
           [ Memory_PhysicalToVirtualAddress (active_address framebuffer);
             Memory_GetPointer
               (PhysicalToVirtualAddress (active_address framebuffer)) ])).
Proof.
  unfold LoadFBToActiveGLTexture, stride_in_pixels, ASSERT.
  destruct (u32 (int (BytesPerPixel (GPU.color_format framebuffer))) =? 0).
  - right. eexists. reflexivity.
  - cbv [bind call ret stop app].
    match goal with |- context [if ?c then _ else _] => destruct c end;
      [| right; eexists; reflexivity].
    match goal with |- context [if ?c then _ else _] => destruct c end;
      [| right; eexists; reflexivity].
    left. eexists. reflexivity.
Qed.

(** Under the ranges of the C++ types ([size_t] at least 32 bits wide, a
    positive [int] number of bytes per pixel, a [u32] stride) the
    conversions are exact and the two checks read as divisibility tests. *)
Lemma LoadFBToActiveGLTexture_checked {abi : HostABI} {ext : Collaborators}
    (framebuffer : GPU.FramebufferConfig) (texture : TextureInfo) :
  32 <= size_t_bits ->
  0 < BytesPerPixel (GPU.color_format framebuffer) < 2 ^ 31 ->
  0 <= GPU.stride framebuffer < 2 ^ 32 ->
  LoadFBToActiveGLTexture framebuffer texture
  = if (GPU.stride framebuffer
          mod BytesPerPixel (GPU.color_format framebuffer) =? 0)
       && ((GPU.stride framebuffer
              / BytesPerPixel (GPU.color_format framebuffer)) mod 4 =? 0)
    then
      (Done tt,
       [ Memory_PhysicalToVirtualAddress (active_address framebuffer);
         Memory_GetPointer
           (PhysicalToVirtualAddress (active_address framebuffer));
         glBindTexture GL_TEXTURE_2D (handle texture);
         glPixelStorei GL_UNPACK_ROW_LENGTH
           (GLint (GPU.stride framebuffer
                     / BytesPerPixel (GPU.color_format framebuffer)));
         glTexSubImage2D GL_TEXTURE_2D 0 0 0
           (GLsizei (GPU.width framebuffer))
           (GLsizei (GPU.height framebuffer))
           (gl_format texture) (gl_type texture)
           (host_pointer
              (GetPointer
                 (PhysicalToVirtualAddress (active_address framebuffer))));
         glPixelStorei GL_UNPACK_ROW_LENGTH 0;
         glBindTexture GL_TEXTURE_2D 0 ])
    else
      (Stop AssertionFailed,
       [ Memory_PhysicalToVirtualAddress (active_address framebuffer);
         Memory_GetPointer
           (PhysicalToVirtualAddress (active_address framebuffer)) ]).
Proof.
  intros Hbits Hbpp Hstride.
  set (bpp := BytesPerPixel (GPU.color_format framebuffer)) in *.
  set (stride := GPU.stride framebuffer) in *.
  assert (Hq : 0 <= stride / bpp <= stride).
  { split; [apply Z.div_pos; lia |]. apply Z.div_le_upper_bound; nia. }
  assert (Hm : bpp * (stride / bpp) <= stride)
    by (apply Z.mul_div_le; lia).
  assert (H4 : 0 <= (stride / bpp) mod 4 < 4) by (apply Z.mod_pos_bound; lia).
  assert (E32 : (2 ^ 32 = 4294967296)%Z) by reflexivity.
  unfold LoadFBToActiveGLTexture, stride_in_pixels, ASSERT.
  fold bpp stride.
  unfold int, u32.
  rewrite (wrap_signed_small bpp) by lia.
  rewrite !(wrap_unsigned_small 32) by lia.
  replace (bpp =? 0) with false by (symmetry; apply Z.eqb_neq; lia).
  cbv [bind call ret stop app].
  rewrite (size_t_small (stride / bpp)) by lia.
  rewrite (size_t_small bpp) by lia.
  rewrite (size_t_small 4) by lia.
  rewrite (size_t_small stride) by lia.
  rewrite (size_t_small (stride / bpp * bpp)) by lia.
  rewrite (size_t_small ((stride / bpp) mod 4)) by lia.
  replace (stride / bpp * bpp =? stride) with (stride mod bpp =? 0).
  2:{ rewrite (Z.div_mod stride bpp) at 3 by lia.
      destruct (stride mod bpp =? 0) eqn:E.
      - apply Z.eqb_eq in E. symmetry. apply Z.eqb_eq. lia.
      - apply Z.eqb_neq in E. symmetry. apply Z.eqb_neq. lia. }
  destruct (stride mod bpp =? 0); [| reflexivity].
  destruct ((stride / bpp) mod 4 =? 0); reflexivity.
Qed.

Example upload_stride_1600 :
  LoadFBToActiveGLTexture (abi := host64) (ext := sample_collaborators)
    (sample_framebuffer 400 240 GPU.RGBA8 1600) sample_texture
  = (Done tt,
     [ Memory_PhysicalToVirtualAddress 402653184;
       Memory_GetPointer 402657280;
       glBindTexture GL_TEXTURE_2D 7;
       glPixelStorei GL_UNPACK_ROW_LENGTH 400;
       glTexSubImage2D GL_TEXTURE_2D 0 0 0 400 240
         GL_RGB GL_UNSIGNED_SHORT_5_6_5 (host_pointer 402657280);
       glPixelStorei GL_UNPACK_ROW_LENGTH 0;
       glBindTexture GL_TEXTURE_2D 0 ]).
Proof. reflexivity. Qed.

Example upload_stride_1602 :
  outcome
    (LoadFBToActiveGLTexture (abi := host64) (ext := sample_collaborators)
       (sample_framebuffer 400 240 GPU.RGBA8 1602) sample_texture)
  = Stop AssertionFailed.
Proof. reflexivity. Qed.

(** C4.  With [bpp] the bytes per pixel of the framebuffer's format (a
    positive [int]) and a [u32] stride, the contract checks of
    [LoadFBToActiveGLTexture] pass exactly when the stride is a multiple of
    [bpp] and the pixel stride [stride / bpp] is a multiple of 4; otherwise
    the run stops at the failed assertion.  In particular, at width 400 and
    4 bytes per pixel, stride 1600 passes both checks, with pixel stride 400
    as the row length given to the backend, and stride 1602 is rejected. *)
Theorem stride_contract_check {abi : HostABI} {ext : Collaborators}
    (framebuffer : GPU.FramebufferConfig) (texture : TextureInfo) :
  32 <= size_t_bits ->
  0 < BytesPerPixel (GPU.color_format framebuffer) < 2 ^ 31 ->
  0 <= GPU.stride framebuffer < 2 ^ 32 ->
  (outcome (LoadFBToActiveGLTexture framebuffer texture) = Done tt
   <-> GPU.stride framebuffer
         mod BytesPerPixel (GPU.color_format framebuffer) = 0
       /\ (GPU.stride framebuffer
             / BytesPerPixel (GPU.color_format framebuffer)) mod 4 = 0)
  /\ (outcome (LoadFBToActiveGLTexture framebuffer texture) <> Done tt ->
      outcome (LoadFBToActiveGLTexture framebuffer texture)
      = Stop AssertionFailed)
  /\ (BytesPerPixel (GPU.color_format framebuffer) = 4 ->
      GPU.width framebuffer = 400 ->
      GPU.stride framebuffer = 1600 ->
      outcome (LoadFBToActiveGLTexture framebuffer texture) = Done tt
      /\ In (glPixelStorei GL_UNPACK_ROW_LENGTH 400)
            (trace (LoadFBToActiveGLTexture framebuffer texture)))
  /\ (BytesPerPixel (GPU.color_format framebuffer) = 4 ->
      GPU.width framebuffer = 400 ->
      GPU.stride framebuffer = 1602 ->
      outcome (LoadFBToActiveGLTexture framebuffer texture)
      = Stop AssertionFailed).
Proof.
  intros Hbits Hbpp Hstride.
  rewrite (LoadFBToActiveGLTexture_checked framebuffer texture Hbits Hbpp Hstride).
  set (bpp := BytesPerPixel (GPU.color_format framebuffer)).
  set (stride := GPU.stride framebuffer).
  split; [| split; [| split]].
  - destruct (stride mod bpp =? 0) eqn:E; simpl.
    + apply Z.eqb_eq in E.
      destruct ((stride / bpp) mod 4 =? 0) eqn:E4; simpl.
      * apply Z.eqb_eq in E4. tauto.
      * apply Z.eqb_neq in E4. split; [discriminate | tauto].
    + apply Z.eqb_neq in E. split; [discriminate | tauto].
  - destruct (_ && _); [intros Hne; now elim Hne | reflexivity].
  - subst bpp stride. intros Ebpp _ Es. rewrite Ebpp, Es.
    split; [reflexivity |]. do 3 right. left. reflexivity.
  - subst bpp stride. intros Ebpp _ Es. rewrite Ebpp, Es. reflexivity.
Qed.

Lemma stride_contract_check_witness :
  (outcome
     (LoadFBToActiveGLTexture (abi := host64) (ext := sample_collaborators)
        (sample_framebuffer 400 240 GPU.RGBA8 1600) sample_texture) = Done tt
   /\ In (glPixelStorei GL_UNPACK_ROW_LENGTH 400)
         (trace
            (LoadFBToActiveGLTexture (abi := host64)
               (ext := sample_collaborators)
               (sample_framebuffer 400 240 GPU.RGBA8 1600) sample_texture)))
  /\ outcome
       (LoadFBToActiveGLTexture (abi := host64) (ext := sample_collaborators)
          (sample_framebuffer 400 240 GPU.RGBA8 1602) sample_texture)
     = Stop AssertionFailed.
Proof.
  split.
  - apply (stride_contract_check (abi := host64) (ext := sample_collaborators)
             (sample_framebuffer 400 240 GPU.RGBA8 1600) sample_texture);
      try reflexivity; simpl; lia.
  - apply (stride_contract_check (abi := host64) (ext := sample_collaborators)
             (sample_framebuffer 400 240 GPU.RGBA8 1602) sample_texture);
      try reflexivity; simpl; lia.
Defined.

(** C7.  The physical address [LoadFBToActiveGLTexture] reads from is
    [address_left1] when the active-buffer selector is 0 and
    [address_left2] otherwise (so, the two candidates being different
    addresses, it is the first one if and only if the selector is 0).  The
    run begins by translating that address through
    [Memory::PhysicalToVirtualAddress] and fetching the pointer for the
    translated address through [Memory::GetPointer]; every pixel upload that
    follows reads from that pointer, and a completed run has exactly one. *)
Theorem upload_reads_active_buffer {abi : HostABI} {ext : Collaborators}
    (framebuffer : GPU.FramebufferConfig) (texture : TextureInfo) :
  exists (paddr : Z) (rest : list Event),
    (GPU.active_fb framebuffer = 0 -> paddr = GPU.address_left1 framebuffer)
    /\ (GPU.active_fb framebuffer <> 0 ->
        paddr = GPU.address_left2 framebuffer)
    /\ (GPU.address_left1 framebuffer <> GPU.address_left2 framebuffer ->
        (paddr = GPU.address_left1 framebuffer
         <-> GPU.active_fb framebuffer = 0))
    /\ trace (LoadFBToActiveGLTexture framebuffer texture)
       = Memory_PhysicalToVirtualAddress paddr
         :: Memory_GetPointer (PhysicalToVirtualAddress paddr)
         :: rest
    /\ (forall e : Event,
          In e rest ->
          upload_source e = None
          \/ upload_source e
             = Some (host_pointer
                       (GetPointer (PhysicalToVirtualAddress paddr))))
    /\ (outcome (LoadFBToActiveGLTexture framebuffer texture) = Done tt ->
        length (filter is_pixel_upload rest) = 1%nat).
Proof.
  exists (active_address framebuffer).
  assert (Hsel :
    (GPU.active_fb framebuffer = 0 ->
     active_address framebuffer = GPU.address_left1 framebuffer)
    /\ (GPU.active_fb framebuffer <> 0 ->
        active_address framebuffer = GPU.address_left2 framebuffer)).
  { unfold active_address.
    destruct (GPU.active_fb framebuffer =? 0) eqn:E.
    - apply Z.eqb_eq in E. split; [reflexivity | contradiction].
    - apply Z.eqb_neq in E. split; [contradiction | reflexivity]. }
  destruct Hsel as (Hfirst & Hsecond).
  assert (Hiff :
    GPU.address_left1 framebuffer <> GPU.address_left2 framebuffer ->
    (active_address framebuffer = GPU.address_left1 framebuffer
     <-> GPU.active_fb framebuffer = 0)).
  { intros Hne. split; [| exact Hfirst].
    intros Ha. destruct (Z.eq_dec (GPU.active_fb framebuffer) 0) as [E | E];
      [exact E |].
    apply Hsecond in E. congruence. }
  destruct (LoadFBToActiveGLTexture_cases framebuffer texture)
    as [(ps & Hrun) | (why & Hrun)]; rewrite Hrun; simpl.
  - eexists. repeat (split; [eassumption || reflexivity |]).
    split; [| reflexivity].
    intros e [<- | [<- | [<- | [<- | [<- | []]]]]]; simpl; auto.
  - exists []. repeat (split; [eassumption || reflexivity |]).
    split; [intros e [] | discriminate].
Qed.

(** C8.  A run of [LoadFBToActiveGLTexture] that completes ends with the
    calls that reset [GL_UNPACK_ROW_LENGTH] to 0 and unbind the texture, so
    whatever the backend state before the call, afterwards the row length is
    the default 0 and no texture is bound.  A run that a check stops has
    made no backend call and leaves the backend state as it was.  Hence in
    every run that sets the row length or binds the texture, the row length
    is 0 and the binding is 0 at the end. *)
Theorem upload_restores_backend_state {abi : HostABI} {ext : Collaborators}
    (framebuffer : GPU.FramebufferConfig) (texture : TextureInfo)
    (s : GLState) :
  (outcome (LoadFBToActiveGLTexture framebuffer texture) = Done tt ->
   (exists before : list Event,
      trace (LoadFBToActiveGLTexture framebuffer texture)
      = before ++ [ glPixelStorei GL_UNPACK_ROW_LENGTH 0;
                    glBindTexture GL_TEXTURE_2D 0 ])
   /\ unpack_row_length
        (gl_run s (trace (LoadFBToActiveGLTexture framebuffer texture))) = 0
   /\ texture_binding_2d
        (gl_run s (trace (LoadFBToActiveGLTexture framebuffer texture))) = 0)
  /\ (outcome (LoadFBToActiveGLTexture framebuffer texture) <> Done tt ->
      gl_run s (trace (LoadFBToActiveGLTexture framebuffer texture)) = s)
  /\ (forall p : Z,
        In (glPixelStorei GL_UNPACK_ROW_LENGTH p)
           (trace (LoadFBToActiveGLTexture framebuffer texture)) ->
        unpack_row_length
          (gl_run s (trace (LoadFBToActiveGLTexture framebuffer texture))) = 0)
  /\ (forall h : Z,
        In (glBindTexture GL_TEXTURE_2D h)
           (trace (LoadFBToActiveGLTexture framebuffer texture)) ->
        texture_binding_2d
          (gl_run s (trace (LoadFBToActiveGLTexture framebuffer texture))) = 0).
Proof.
  destruct (LoadFBToActiveGLTexture_cases framebuffer texture)
    as [(ps & Hrun) | (why & Hrun)]; rewrite Hrun;
    unfold outcome, trace; cbn [fst snd].
  - set (t := _ :: _).
    assert (Hend : unpack_row_length (gl_run s t) = 0
                   /\ texture_binding_2d (gl_run s t) = 0).
    { subst t. unfold gl_run. cbn [fold_left gl_step].
      destruct (GLint ps <? 0); split; reflexivity. }
    destruct Hend as (Hrow & Hbind).
    split; [| split; [| split]].
    + intros _. split; [| split; assumption].
      subst t. eexists [_; _; _; _; _]. reflexivity.
    + intros Hne. now elim Hne.
    + intros _ _. exact Hrow.
    + intros _ _. exact Hbind.
  - split; [| split; [| split]].
    + discriminate.
    + reflexivity.
    + intros p [Hin | [Hin | []]]; discriminate.
    + intros h [Hin | [Hin | []]]; discriminate.
Qed.

(** ** The projection matrix *)

Example orthographic_matrix_400_240 :
  map Binary32.eval
    (row_major (FLit 0) (MakeOrthographicMatrix (FCast 400) (FCast 240)))
  = [ SpecFloat.S754_finite false 10737418 (-31);
      SpecFloat.S754_zero false;
      SpecFloat.S754_finite true 8388608 (-23);
      SpecFloat.S754_zero false;
      SpecFloat.S754_finite true 8947849 (-30);
      SpecFloat.S754_finite false 8388608 (-23) ].
Proof. reflexivity. Qed.









(** ** The frame counter *)

Lemma DrawScreens_outcome {ext : Collaborators} (r : RendererOpenGL)
    (frame : Frame) :
  outcome (DrawScreens r frame) = Done (increment_current_frame r).
Proof. reflexivity. Qed.

(** [SwapBuffers] completes exactly when the update of the two screens
    does, and then the renderer it leaves is the one [DrawScreens] returns. *)
Lemma SwapBuffers_outcome {abi : HostABI} {ext : Collaborators}
    (r : RendererOpenGL) (frame : Frame) :
  outcome (SwapBuffers r frame)
  = match outcome (for_each (SwapBuffers_screen frame) [0; 1] (textures r)) with
    | Done ts => Done (increment_current_frame (set_textures r ts))
    | Stop why => Stop why
    end.
Proof.
  unfold SwapBuffers.
  destruct (for_each (SwapBuffers_screen frame) [0; 1] (textures r))
    as [[ts | why] t]; reflexivity.
Qed.

Lemma SwapBuffers_counts_one {abi : HostABI} {ext : Collaborators}
    (r r' : RendererOpenGL) (frame : Frame) :
  outcome (SwapBuffers r frame) = Done r' ->
  m_current_frame r' = m_current_frame r + 1.
Proof.
  rewrite SwapBuffers_outcome.
  destruct (outcome (for_each (SwapBuffers_screen frame) [0; 1] (textures r)));
    [| discriminate].
  intros E. injection E as <-. reflexivity.
Qed.

Lemma outcome_bind {A B : Type} (m : M A) (k : A -> M B) :
  outcome (bind m k)
  = match outcome m with
    | Done a => outcome (k a)
    | Stop why => Stop why
    end.
Proof.
  destruct m as [[a | why] t]; simpl; [| reflexivity].
  now destruct (k a).
Qed.

Example one_frame :
  option_map m_current_frame
    (match outcome (SwapBuffers (abi := host64) (ext := sample_collaborators)
                      sample_renderer sample_frame) with
     | Done r' => Some r'
     | Stop _ => None
     end)
  = Some 1.
Proof. reflexivity. Qed.

Lemma ensureReady_completes (texture : TextureInfo)
    (framebuffer : GPU.FramebufferConfig) :
  GPU.supported (GPU.color_format framebuffer) = true ->
  exists t1 : TextureInfo,
    outcome (ensureReady texture framebuffer) = Done t1.
Proof.
  intros Hsup. unfold ensureReady.
  destruct (texture_differs texture framebuffer).
  - destruct (ConfigureFramebufferTexture_supported texture framebuffer Hsup)
      as (internal & t1 & Hout & _).
    now exists t1.
  - now exists texture.
Qed.

Lemma SwapBuffers_screen_completes {abi : HostABI} {ext : Collaborators}
    (frame : Frame) (ts : TextureInfo * TextureInfo) (i : Z) :
  32 <= size_t_bits ->
  screen_well_formed frame i ->
  exists ts' : TextureInfo * TextureInfo,
    outcome (SwapBuffers_screen frame ts i) = Done ts'.
Proof.
  intros Hbits Hwf. unfold SwapBuffers_screen.
  rewrite outcome_bind. cbn [call outcome fst].
  destruct (LCD.is_enabled (lcd_regs frame (lcd_color_addr i))) eqn:Hen.
  - eexists. reflexivity.
  - destruct Hwf as [Hfill | (Hsup & Hbpp & Hstride & Hmul & Hrow)];
      [congruence |].
    rewrite outcome_bind.
    destruct (ensureReady_completes (texture_at i ts) _ Hsup) as (t1 & ->).
    rewrite outcome_bind.
    rewrite (LoadFBToActiveGLTexture_checked _ t1 Hbits Hbpp Hstride).
    rewrite Hmul, Hrow. simpl. eexists. reflexivity.
Qed.

Lemma SwapBuffers_completes {abi : HostABI} {ext : Collaborators}
    (r : RendererOpenGL) (frame : Frame) :
  32 <= size_t_bits ->
  frame_well_formed frame ->
  exists r' : RendererOpenGL, outcome (SwapBuffers r frame) = Done r'.
Proof.
  intros Hbits (Htop & Hbottom).
  rewrite SwapBuffers_outcome. cbn [for_each].
  rewrite outcome_bind.
  destruct (SwapBuffers_screen_completes frame (textures r) 0 Hbits Htop)
    as (ts0 & ->).
  rewrite outcome_bind.
  destruct (SwapBuffers_screen_completes frame ts0 1 Hbits Hbottom)
    as (ts1 & ->).
  simpl. eexists. reflexivity.
Qed.

(** C6.  One execution of [SwapBuffers] that runs to completion leaves
    [m_current_frame] exactly one higher than it found it, and after any
    sequence of consecutive frames presented to completion the counter has
    advanced by exactly the number of frames.  A sequence of well-formed
    frames is always presented to completion. *)
Theorem frame_counter_advances_by_one {abi : HostABI} {ext : Collaborators}
    (r : RendererOpenGL) :
  (forall (frame : Frame) (r' : RendererOpenGL),
     outcome (SwapBuffers r frame) = Done r' ->
     m_current_frame r' = m_current_frame r + 1)
  /\ (forall (frames : list Frame) (r' : RendererOpenGL),
        outcome (present_frames r frames) = Done r' ->
        m_current_frame r' = m_current_frame r + Z.of_nat (length frames))
  /\ (forall frames : list Frame,
        32 <= size_t_bits ->
        Forall frame_well_formed frames ->
        exists r' : RendererOpenGL,
          outcome (present_frames r frames) = Done r'
          /\ m_current_frame r'
             = m_current_frame r + Z.of_nat (length frames)).
Proof.
  assert (Hseq : forall (frames : list Frame) (r0 r' : RendererOpenGL),
            outcome (present_frames r0 frames) = Done r' ->
            m_current_frame r'
            = m_current_frame r0 + Z.of_nat (length frames)).
  { induction frames as [| frame rest IH]; intros r0 r' Hrun.
    - simpl in Hrun. injection Hrun as <-. simpl. lia.
    - cbn [present_frames] in Hrun. rewrite outcome_bind in Hrun.
      destruct (outcome (SwapBuffers r0 frame)) as [r1 |] eqn:E1;
        [| discriminate].
      apply SwapBuffers_counts_one in E1.
      apply IH in Hrun. rewrite Hrun, E1.
      change (length (frame :: rest)) with (S (length rest)). lia. }
  split; [| split].
  - intros frame r'. apply SwapBuffers_counts_one.
  - intros frames r'. apply Hseq.
  - intros frames Hbits Hwf.
    assert (Hdone : exists r', outcome (present_frames r frames) = Done r').
    { revert r. induction Hwf as [| frame rest Hframe _ IH]; intros r.
      - now exists r.
      - cbn [present_frames]. rewrite outcome_bind.
        destruct (SwapBuffers_completes r frame Hbits Hframe) as (r1 & ->).
        apply IH. }
    destruct Hdone as (r' & Hrun). exists r'. split; [exact Hrun |].
    now apply Hseq.
Qed.

Lemma frame_counter_advances_by_one_witness :
  exists r' : RendererOpenGL,
    outcome (present_frames (abi := host64) (ext := sample_collaborators)
               sample_renderer (repeat sample_frame 1000)) = Done r'
    /\ m_current_frame r' = 0 + 1000.
Proof.
  eexists. split.
  - vm_compute. reflexivity.
  - apply (proj1 (proj2 (frame_counter_advances_by_one (abi := host64)
                           (ext := sample_collaborators) sample_renderer))
             (repeat sample_frame 1000)).
    vm_compute. reflexivity.
Defined.

(** ** Colour fill followed by a framebuffer frame *)

Example fill_then_framebuffer :
  trace (SwapBuffers_screen (abi := host64) (ext := sample_collaborators)
           sample_frame
           (sample_texture,
            {| handle := 7; width := 1; height := 1; format := GPU.RGB565;
               gl_format := GL_RGB; gl_type := GL_UNSIGNED_SHORT_5_6_5 |}) 0)
  = [ LCD_Read LCD.color_fill_top;
      Memory_PhysicalToVirtualAddress 402653184;
      Memory_GetPointer 402657280;
      glBindTexture GL_TEXTURE_2D 7;
      glPixelStorei GL_UNPACK_ROW_LENGTH 240;
      glTexSubImage2D GL_TEXTURE_2D 0 0 0 240 400
        GL_RGB GL_UNSIGNED_SHORT_5_6_5 (host_pointer 402657280);
      glPixelStorei GL_UNPACK_ROW_LENGTH 0;
      glBindTexture GL_TEXTURE_2D 0 ].
Proof. reflexivity. Qed.

(** C9.  The colour-fill branch changes only the width and the height of
    the screen's stored texture, both to 1: its handle, format, [gl_format]
    and [gl_type] stay as they were, and so does the other screen's
    texture.  Consequently, when the next frame of
    that screen is not a colour fill and its framebuffer's width or height
    is not 1, the reallocation test fires whatever the format is, also an
    unchanged one: [ensureReady] runs [ConfigureFramebufferTexture], and for
    each of the five formats the screen's update starts by allocating
    storage of the framebuffer's size. *)
Theorem color_fill_forces_reallocation {abi : HostABI} {ext : Collaborators}
    (frame next : Frame) (ts : TextureInfo * TextureInfo) (i : Z) :
  LCD.is_enabled (lcd_regs frame (lcd_color_addr i)) = true ->
  LCD.is_enabled (lcd_regs next (lcd_color_addr i)) = false ->
  0 <= GPU.width (framebuffer_config next i) < 2 ^ 31 ->
  0 <= GPU.height (framebuffer_config next i) < 2 ^ 31 ->
  GPU.width (framebuffer_config next i) <> 1
  \/ GPU.height (framebuffer_config next i) <> 1 ->
  exists ts1 : TextureInfo * TextureInfo,
    outcome (SwapBuffers_screen frame ts i) = Done ts1
    /\ width (texture_at i ts1) = 1
    /\ height (texture_at i ts1) = 1
    /\ handle (texture_at i ts1) = handle (texture_at i ts)
    /\ format (texture_at i ts1) = format (texture_at i ts)
    /\ gl_format (texture_at i ts1) = gl_format (texture_at i ts)
    /\ gl_type (texture_at i ts1) = gl_type (texture_at i ts)
    /\ (forall j : Z, (j =? 0) <> (i =? 0) ->
        texture_at j ts1 = texture_at j ts)
    /\ texture_differs (texture_at i ts1) (framebuffer_config next i) = true
    /\ ensureReady (texture_at i ts1) (framebuffer_config next i)
       = ConfigureFramebufferTexture (texture_at i ts1)
           (framebuffer_config next i)
    /\ (GPU.supported (GPU.color_format (framebuffer_config next i)) = true ->
        exists (internal_format gl_f gl_t : GLenum) (rest : list Event),
          trace (SwapBuffers_screen next ts1 i)
          = LCD_Read (lcd_color_addr i)
            :: glBindTexture GL_TEXTURE_2D (handle (texture_at i ts))
            :: glTexImage2D GL_TEXTURE_2D 0 internal_format
                 (GPU.width (framebuffer_config next i))
                 (GPU.height (framebuffer_config next i)) 0
                 gl_f gl_t nullptr
            :: rest).
Proof.
  intros Hen Hnext Hw Hh Hsize.
  set (ts1 := set_texture_at i (set_height (set_width (texture_at i ts) 1) 1) ts).
  assert (Hrun : outcome (SwapBuffers_screen frame ts i) = Done ts1).
  { unfold SwapBuffers_screen. rewrite Hen. reflexivity. }
  assert (Hat : texture_at i ts1
                = set_height (set_width (texture_at i ts) 1) 1)
    by apply texture_at_set.
  assert (Hdiff : texture_differs (texture_at i ts1) (framebuffer_config next i)
                  = true).
  { apply texture_differs_true. rewrite Hat.
    unfold GLsizei. rewrite !wrap_signed_small by assumption.
    simpl. intros Heq. injection Heq as Ew Eh _. lia. }
  assert (Hother : forall j : Z, (j =? 0) <> (i =? 0) ->
                   texture_at j ts1 = texture_at j ts).
  { intros j Hj. subst ts1. unfold texture_at, set_texture_at.
    destruct (i =? 0), (j =? 0); solve [reflexivity | now elim Hj]. }
  exists ts1. rewrite Hat in *.
  repeat (split; [solve [assumption | reflexivity] |]).
  split; [unfold ensureReady; now rewrite Hdiff |].
  intros Hsup.
  destruct (ConfigureFramebufferTexture_supported
              (set_height (set_width (texture_at i ts) 1) 1)
              (framebuffer_config next i) Hsup)
    as (internal & t1 & Hout & Htr & _).
  unfold GLsizei in Htr. rewrite !wrap_signed_small in Htr by assumption.
  unfold SwapBuffers_screen. rewrite Hnext.
  fold ts1. rewrite Hat.
  unfold ensureReady. rewrite Hdiff.
  destruct (ConfigureFramebufferTexture
              (set_height (set_width (texture_at i ts) 1) 1)
              (framebuffer_config next i)) as [o t].
  unfold outcome, trace in Hout, Htr. simpl in Hout, Htr. subst o t.
  cbv [bind call ret app trace snd].
  destruct (LoadFBToActiveGLTexture (framebuffer_config next i) t1)
    as [[[] | why] tl]; do 4 eexists; reflexivity.
Qed.

Lemma color_fill_forces_reallocation_witness :
  exists ts1 : TextureInfo * TextureInfo,
    outcome (SwapBuffers_screen (abi := host64) (ext := sample_collaborators)
               sample_frame (sample_texture, sample_texture) 1) = Done ts1
    /\ width (texture_at 1 ts1) = 1
    /\ height (texture_at 1 ts1) = 1
    /\ handle (texture_at 1 ts1) = 7
    /\ format (texture_at 1 ts1) = GPU.RGB565
    /\ gl_format (texture_at 1 ts1) = GL_RGB
    /\ gl_type (texture_at 1 ts1) = GL_UNSIGNED_SHORT_5_6_5
    /\ (forall j : Z, (j =? 0) <> (1 =? 0) ->
        texture_at j ts1 = texture_at j (sample_texture, sample_texture))
    /\ texture_differs (texture_at 1 ts1)
         (sample_framebuffer 240 400 GPU.RGB565 480) = true
    /\ ensureReady (texture_at 1 ts1)
         (sample_framebuffer 240 400 GPU.RGB565 480)
       = ConfigureFramebufferTexture (texture_at 1 ts1)
           (sample_framebuffer 240 400 GPU.RGB565 480)
    /\ (GPU.supported GPU.RGB565 = true ->
        exists (internal_format gl_f gl_t : GLenum) (rest : list Event),
          trace (SwapBuffers_screen (abi := host64)
                   (ext := sample_collaborators) next_frame ts1 1)
          = LCD_Read LCD.color_fill_bottom
            :: glBindTexture GL_TEXTURE_2D 7
            :: glTexImage2D GL_TEXTURE_2D 0 internal_format 240 400 0
                 gl_f gl_t nullptr
            :: rest).
Proof.
  apply (color_fill_forces_reallocation (abi := host64)
           (ext := sample_collaborators) sample_frame next_frame
           (sample_texture, sample_texture) 1).
  - reflexivity.
  - reflexivity.
  - simpl; lia.
  - simpl; lia.
  - left. simpl. lia.
Defined.

(** ** The RomFS file stub *)

Example romfs_read_32_bit_host :
  File_RomFS.Read (abi := host32) tt 0 16 [1; 2; 3]
  = (4294967295, [1; 2; 3], tt).
Proof. reflexivity. Qed.

(** C10.  [File_RomFS::Read], [Write] and [GetSize] each return -1
    converted to [size_t], that is [SIZE_MAX], the largest value of the
    type, for every offset, length and buffer; it exceeds every requested
    length below [SIZE_MAX], so it is not a count of bytes transferred.
    [Close] returns [false].  None of them changes the buffer or the
    object. *)
Theorem romfs_stub_never_transfers {abi : HostABI} {File : Type}
    (this : File) (offset length flush : Z) (buffer : list Z) :
  0 < size_t_bits ->
  File_RomFS.Read this offset length buffer = (SIZE_MAX, buffer, this)
  /\ File_RomFS.Write this offset length flush buffer
     = (SIZE_MAX, buffer, this)
  /\ File_RomFS.GetSize this = (SIZE_MAX, this)
  /\ File_RomFS.Close this = (false, this)
  /\ (forall z : Z, size_t z <= SIZE_MAX)
  /\ (0 <= length < SIZE_MAX ->
      length < fst (fst (File_RomFS.Read this offset length buffer))
      /\ length
         < fst (fst (File_RomFS.Write this offset length flush buffer))).
Proof.
  intros Hbits.
  assert (Hpow : 0 < 2 ^ size_t_bits) by (apply Z.pow_pos_nonneg; lia).
  assert (Hmax : size_t (-1) = SIZE_MAX).
  { unfold size_t, wrap_unsigned, SIZE_MAX.
    symmetry. apply (Z.mod_unique_pos _ _ (-1)); lia. }
  unfold File_RomFS.Read, File_RomFS.Write, File_RomFS.GetSize,
    File_RomFS.Close.
  rewrite Hmax. repeat (split; [reflexivity |]).
  split.
  - intros z. unfold size_t, wrap_unsigned, SIZE_MAX.
    pose proof (Z.mod_pos_bound z (2 ^ size_t_bits) Hpow). lia.
  - simpl. lia.
Qed.

Lemma romfs_stub_never_transfers_witness :
  File_RomFS.Read (abi := host64) tt 0 16 [1; 2; 3]
    = (18446744073709551615, [1; 2; 3], tt)
  /\ File_RomFS.Write (abi := host64) tt 0 16 0 [1; 2; 3]
     = (18446744073709551615, [1; 2; 3], tt)
  /\ File_RomFS.GetSize (abi := host64) tt = (18446744073709551615, tt)
  /\ File_RomFS.Close tt = (false, tt)
  /\ (forall z : Z, size_t (abi := host64) z <= 18446744073709551615)
  /\ (0 <= 16 < 18446744073709551615 ->
      16 < fst (fst (File_RomFS.Read (abi := host64) tt 0 16 [1; 2; 3]))
      /\ 16
         < fst (fst (File_RomFS.Write (abi := host64) tt 0 16 0 [1; 2; 3]))).
Proof.
  apply (romfs_stub_never_transfers (abi := host64) tt 0 16 0 [1; 2; 3]).
  reflexivity.
Defined.

(** * Further properties of the frame cycle *)

(** ** Traces of composed computations *)

Lemma trace_bind {A B : Type} (m : M A) (k : A -> M B) :
  trace (bind m k)
  = trace m ++ match outcome m with
               | Done a => trace (k a)
               | Stop _ => []
               end.
Proof.
  destruct m as [[a | why] t]; simpl.
  - now destruct (k a).
  - now rewrite app_nil_r.
Qed.

Lemma gl_run_app (s : GLState) (t1 t2 : list Event) :
  gl_run s (t1 ++ t2) = gl_run (gl_run s t1) t2.
Proof. apply fold_left_app. Qed.

Lemma allocations_app (t1 t2 : list Event) :
  allocations (t1 ++ t2) = (allocations t1 + allocations t2)%nat.
Proof. unfold allocations. now rewrite filter_app, length_app. Qed.

(** ** What a run of each step leaves *)

(** A completed [ConfigureFramebufferTexture]: the handle is kept, the
    metadata is the framebuffer's, the descriptor is the one of the format,
    and the trace is the bind and the allocation. *)
Lemma ConfigureFramebufferTexture_done (texture t1 : TextureInfo)
    (framebuffer : GPU.FramebufferConfig) :
  outcome (ConfigureFramebufferTexture texture framebuffer) = Done t1 ->
  handle t1 = handle texture
  /\ width t1 = GLsizei (GPU.width framebuffer)
  /\ height t1 = GLsizei (GPU.height framebuffer)
  /\ format t1 = GPU.color_format framebuffer
  /\ descriptor_consistent t1
  /\ exists internal_format : GLenum,
       trace (ConfigureFramebufferTexture texture framebuffer)
       = [ glBindTexture GL_TEXTURE_2D (handle texture);
           glTexImage2D GL_TEXTURE_2D 0 internal_format
             (GLsizei (GPU.width framebuffer))
             (GLsizei (GPU.height framebuffer)) 0
             (gl_format t1) (gl_type t1) nullptr ].
Proof.
  unfold ConfigureFramebufferTexture, descriptor_consistent.
  destruct (GPU.color_format framebuffer) eqn:Ef; simpl;
    try discriminate; intros E; injection E as <-; simpl;
    (repeat split; eexists; reflexivity).
Qed.

Lemma ensureReady_done (texture t1 : TextureInfo)
    (framebuffer : GPU.FramebufferConfig) :
  outcome (ensureReady texture framebuffer) = Done t1 ->
  handle t1 = handle texture
  /\ width t1 = GLsizei (GPU.width framebuffer)
  /\ height t1 = GLsizei (GPU.height framebuffer)
  /\ format t1 = GPU.color_format framebuffer
  /\ (descriptor_consistent texture -> descriptor_consistent t1)
  /\ texture_differs t1 framebuffer = false
  /\ ((texture_differs texture framebuffer = false
       /\ t1 = texture
       /\ trace (ensureReady texture framebuffer) = [])
      \/ (texture_differs texture framebuffer = true
          /\ exists internal_format : GLenum,
               trace (ensureReady texture framebuffer)
               = [ glBindTexture GL_TEXTURE_2D (handle texture);
                   glTexImage2D GL_TEXTURE_2D 0 internal_format
                     (GLsizei (GPU.width framebuffer))
                     (GLsizei (GPU.height framebuffer)) 0
                     (gl_format t1) (gl_type t1) nullptr ])).
Proof.
  unfold ensureReady.
  destruct (texture_differs texture framebuffer) eqn:Hd; intros Hrun.
  - destruct (ConfigureFramebufferTexture_done _ _ _ Hrun)
      as (Hh & Hw & Hht & Hf & Hc & Htr).
    repeat (split; [solve [assumption | auto] |]).
    split.
    + apply texture_differs_false. auto.
    + right. auto.
  - injection Hrun as <-.
    pose proof (proj1 (texture_differs_false _ _) Hd) as (Hw & Hh & Hf).
    repeat (split; [solve [assumption | auto] |]).
    left. auto.
Qed.

Lemma set_texture_at_same (i : Z) (ts : TextureInfo * TextureInfo) :
  set_texture_at i (texture_at i ts) ts = ts.
Proof.
  unfold set_texture_at, texture_at. destruct ts. now destruct (i =? 0).
Qed.

Lemma texture_at_other (i j : Z) (v : TextureInfo)
    (ts : TextureInfo * TextureInfo) :
  (j =? 0) <> (i =? 0) ->
  texture_at j (set_texture_at i v ts) = texture_at j ts.
Proof.
  unfold texture_at, set_texture_at.
  destruct (i =? 0), (j =? 0); intros Hne;
    solve [reflexivity | now elim Hne].
Qed.

Lemma set_size_same (t : TextureInfo) :
  set_height (set_width t (width t)) (height t) = t.
Proof. now destruct t. Qed.

(** The outcome of the upload does not depend on the texture, and the
    upload allocates nothing. *)
Lemma LoadFBToActiveGLTexture_outcome_any_texture
    {abi : HostABI} {ext : Collaborators}
    (framebuffer : GPU.FramebufferConfig) (t t' : TextureInfo) :
  outcome (LoadFBToActiveGLTexture framebuffer t)
  = outcome (LoadFBToActiveGLTexture framebuffer t').
Proof.
  unfold LoadFBToActiveGLTexture, stride_in_pixels, ASSERT.
  destruct (u32 (int (BytesPerPixel (GPU.color_format framebuffer))) =? 0);
    [reflexivity |].
  cbv [bind call ret stop app outcome fst].
  repeat match goal with
         | |- context [if ?c then _ else _] => destruct c
         end; reflexivity.
Qed.

Lemma LoadFBToActiveGLTexture_allocates_nothing
    {abi : HostABI} {ext : Collaborators}
    (framebuffer : GPU.FramebufferConfig) (t : TextureInfo) :
  allocations (trace (LoadFBToActiveGLTexture framebuffer t)) = 0%nat.
Proof.
  destruct (LoadFBToActiveGLTexture_cases framebuffer t)
    as [(ps & ->) | (why & ->)]; reflexivity.
Qed.

(** The colour-fill branch of the screen update, in full. *)
Lemma screen_update_fill {abi : HostABI} {ext : Collaborators}
    (frame : Frame) (ts : TextureInfo * TextureInfo) (i : Z) :
  LCD.is_enabled (lcd_regs frame (lcd_color_addr i)) = true ->
  SwapBuffers_screen frame ts i
  = (Done (set_texture_at i (set_height (set_width (texture_at i ts) 1) 1) ts),
     [ LCD_Read (lcd_color_addr i);
       glBindTexture GL_TEXTURE_2D (handle (texture_at i ts));
       glTexImage2D GL_TEXTURE_2D 0 GL_RGB 1 1 0 GL_RGB GL_UNSIGNED_BYTE
         (local_array
            [ u8 (LCD.color_r (lcd_regs frame (lcd_color_addr i)));
              u8 (LCD.color_g (lcd_regs frame (lcd_color_addr i)));
              u8 (LCD.color_b (lcd_regs frame (lcd_color_addr i))) ]);
       glBindTexture GL_TEXTURE_2D 0 ]).
Proof.
  intros Hen. unfold SwapBuffers_screen. rewrite Hen. reflexivity.
Qed.

(** A completed framebuffer branch of the screen update, taken apart. *)
Lemma screen_update_framebuffer_done {abi : HostABI} {ext : Collaborators}
    (frame : Frame) (ts ts' : TextureInfo * TextureInfo) (i : Z) :
  LCD.is_enabled (lcd_regs frame (lcd_color_addr i)) = false ->
  outcome (SwapBuffers_screen frame ts i) = Done ts' ->
  exists t1 : TextureInfo,
    outcome (ensureReady (texture_at i ts) (framebuffer_config frame i))
    = Done t1
    /\ outcome (LoadFBToActiveGLTexture (framebuffer_config frame i) t1)
       = Done tt
    /\ ts' = set_texture_at i t1 ts
    /\ trace (SwapBuffers_screen frame ts i)
       = LCD_Read (lcd_color_addr i)
         :: trace (ensureReady (texture_at i ts) (framebuffer_config frame i))
         ++ trace (LoadFBToActiveGLTexture (framebuffer_config frame i) t1).
Proof.
  intros Hen Hout. unfold SwapBuffers_screen in *. rewrite Hen in *.
  rewrite outcome_bind in Hout. cbn [call outcome fst] in Hout.
  rewrite outcome_bind in Hout.
  destruct (outcome (ensureReady (texture_at i ts)
                       (framebuffer_config frame i))) as [t1 | why] eqn:E1;
    [| discriminate].
  rewrite outcome_bind in Hout.
  destruct (outcome (LoadFBToActiveGLTexture (framebuffer_config frame i) t1))
    as [[] | why] eqn:E2; [| discriminate].
  cbn [ret outcome fst] in Hout. injection Hout as <-.
  exists t1. split; [reflexivity |]. split; [exact E2 |]. split.
  - destruct (ensureReady_done _ _ _ E1) as (_ & Hw & Hh & _).
    rewrite <- Hw, <- Hh. now rewrite set_size_same.
  - rewrite trace_bind. cbn [call trace snd outcome fst].
    rewrite trace_bind, E1, trace_bind, E2. cbn [ret trace snd].
    now rewrite app_nil_r.
Qed.

(** A completed [SwapBuffers], taken apart: the two screen updates, the
    draw, and the hand-over to the window and the profiler. *)
Lemma SwapBuffers_done {abi : HostABI} {ext : Collaborators}
    (r r' : RendererOpenGL) (frame : Frame) :
  outcome (SwapBuffers r frame) = Done r' ->
  exists ts0 ts1 : TextureInfo * TextureInfo,
    outcome (SwapBuffers_screen frame (textures r) 0) = Done ts0
    /\ outcome (SwapBuffers_screen frame ts0 1) = Done ts1
    /\ r' = increment_current_frame (set_textures r ts1)
    /\ trace (SwapBuffers r frame)
       = Window_MakeCurrent
         :: (trace (SwapBuffers_screen frame (textures r) 0)
             ++ trace (SwapBuffers_screen frame ts0 1))
         ++ trace (DrawScreens (set_textures r ts1) frame)
         ++ [ Profiler_FinishFrame; Aggregator_AddFrame; Window_PollEvents;
              Window_SwapBuffers; Profiler_BeginFrame ].
Proof.
  intros Hout. unfold SwapBuffers in *. cbn [for_each] in *.
  destruct (SwapBuffers_screen frame (textures r) 0) as [[ts0 | why] t0];
    [| discriminate].
  cbv [bind call ret outcome fst] in Hout.
  destruct (SwapBuffers_screen frame ts0 1) as [[ts1 | why] t1] eqn:E1;
    [| discriminate].
  pose proof (DrawScreens_outcome (set_textures r ts1) frame) as Hdraw.
  destruct (DrawScreens (set_textures r ts1) frame) as [d td] eqn:Ed.
  cbv [outcome fst] in Hdraw. subst d.
  injection Hout as <-.
  exists ts0, ts1. rewrite E1.
  repeat (split; [reflexivity |]).
  cbv [bind call ret outcome trace fst snd]. rewrite E1, Ed.
  cbn [app]. rewrite !app_nil_r. reflexivity.
Qed.

(** ** The stored metadata follows the framebuffer *)

(** X1.  After a completed update of a screen from its framebuffer (colour
    fill disabled), the stored texture of that screen has the framebuffer's
    width, height (as [GLsizei]) and pixel format and the handle it had,
    a further reallocation test on it is negative, and the other screen's
    texture is untouched. *)
Theorem framebuffer_update_tracks_config {abi : HostABI} {ext : Collaborators}
    (frame : Frame) (ts ts' : TextureInfo * TextureInfo) (i : Z) :
  LCD.is_enabled (lcd_regs frame (lcd_color_addr i)) = false ->
  outcome (SwapBuffers_screen frame ts i) = Done ts' ->
  width (texture_at i ts') = GLsizei (GPU.width (framebuffer_config frame i))
  /\ height (texture_at i ts')
     = GLsizei (GPU.height (framebuffer_config frame i))
  /\ format (texture_at i ts') = GPU.color_format (framebuffer_config frame i)
  /\ handle (texture_at i ts') = handle (texture_at i ts)
  /\ texture_differs (texture_at i ts') (framebuffer_config frame i) = false
  /\ (forall j : Z, (j =? 0) <> (i =? 0) ->
      texture_at j ts' = texture_at j ts).
Proof.
  intros Hen Hout.
  destruct (screen_update_framebuffer_done frame ts ts' i Hen Hout)
    as (t1 & Hready & _ & -> & _).
  destruct (ensureReady_done _ _ _ Hready)
    as (Hh & Hw & Hht & Hf & _ & Hd & _).
  rewrite texture_at_set.
  repeat (split; [assumption |]).
  intros j Hj. now apply texture_at_other.
Qed.

Lemma framebuffer_update_tracks_config_witness :
  width (texture_at 0 (sample_texture, sample_bottom_texture)) = GLsizei 240
  /\ height (texture_at 0 (sample_texture, sample_bottom_texture))
     = GLsizei 400
  /\ format (texture_at 0 (sample_texture, sample_bottom_texture))
     = GPU.RGB565
  /\ handle (texture_at 0 (sample_texture, sample_bottom_texture)) = 7
  /\ texture_differs (texture_at 0 (sample_texture, sample_bottom_texture))
       (sample_framebuffer 240 400 GPU.RGB565 480) = false
  /\ (forall j : Z, (j =? 0) <> (0 =? 0) ->
      texture_at j (sample_texture, sample_bottom_texture)
      = texture_at j (sample_filled_texture, sample_bottom_texture)).
Proof.
  apply (framebuffer_update_tracks_config (abi := host64)
           (ext := sample_collaborators) sample_frame
           (sample_filled_texture, sample_bottom_texture)
           (sample_texture, sample_bottom_texture) 0).
  - reflexivity.
  - reflexivity.
Defined.

(** ** Invariants of the frame cycle *)

Section FrameInvariant.
Context {abi : HostABI} {ext : Collaborators}.
Variable P : TextureInfo * TextureInfo -> Prop.
Hypothesis P_screen :
  forall (frame : Frame) (ts ts' : TextureInfo * TextureInfo) (i : Z),
    P ts -> outcome (SwapBuffers_screen frame ts i) = Done ts' -> P ts'.

(** A property of the two textures that every completed screen update
    keeps is kept by every completed sequence of frames. *)
Lemma present_frames_invariant (frames : list Frame) (r r' : RendererOpenGL) :
  P (textures r) ->
  outcome (present_frames r frames) = Done r' ->
  P (textures r').
Proof.
  revert r. induction frames as [| frame rest IH]; intros r HP Hrun.
  - simpl in Hrun. now injection Hrun as <-.
  - cbn [present_frames] in Hrun. rewrite outcome_bind in Hrun.
    destruct (outcome (SwapBuffers r frame)) as [r1 |] eqn:E1;
      [| discriminate].
    destruct (SwapBuffers_done r r1 frame E1) as (ts0 & ts1 & H0 & H1 & -> & _).
    apply (IH (increment_current_frame (set_textures r ts1))); [| exact Hrun].
    exact (P_screen _ _ _ _ (P_screen _ _ _ _ HP H0) H1).
Qed.

End FrameInvariant.

Lemma screen_update_keeps_handles {abi : HostABI} {ext : Collaborators}
    (frame : Frame) (ts ts' : TextureInfo * TextureInfo) (i : Z) :
  outcome (SwapBuffers_screen frame ts i) = Done ts' ->
  handle (fst ts') = handle (fst ts) /\ handle (snd ts') = handle (snd ts).
Proof.
  intros Hout.
  destruct (LCD.is_enabled (lcd_regs frame (lcd_color_addr i))) eqn:Hen.
  - rewrite (screen_update_fill frame ts i Hen) in Hout.
    injection Hout as <-. unfold set_texture_at, texture_at.
    destruct (i =? 0); split; reflexivity.
  - destruct (screen_update_framebuffer_done frame ts ts' i Hen Hout)
      as (t1 & Hready & _ & -> & _).
    destruct (ensureReady_done _ _ _ Hready) as (Hh & _).
    revert Hh. unfold set_texture_at, texture_at.
    destruct (i =? 0); intros Hh; split; simpl; congruence.
Qed.

(** The members [SwapBuffers] does not assign. *)
Lemma SwapBuffers_keeps_object_names {abi : HostABI} {ext : Collaborators}
    (r r' : RendererOpenGL) (frame : Frame) :
  outcome (SwapBuffers r frame) = Done r' ->
  vertex_buffer_handle r' = vertex_buffer_handle r
  /\ program_id r' = program_id r
  /\ uniform_modelview_matrix r' = uniform_modelview_matrix r
  /\ uniform_color_texture r' = uniform_color_texture r.
Proof.
  intros Hout.
  destruct (SwapBuffers_done r r' frame Hout) as (ts0 & ts1 & _ & _ & -> & _).
  repeat split.
Qed.

(** X2.  No sequence of frames presented to completion changes a backend
    object name the renderer holds: the handles of the two textures, the
    vertex buffer handle, the program id and the two uniform locations are
    after the last frame what they were before the first. *)
Theorem present_frames_keeps_object_names {abi : HostABI} {ext : Collaborators}
    (frames : list Frame) (r r' : RendererOpenGL) :
  outcome (present_frames r frames) = Done r' ->
  handle (fst (textures r')) = handle (fst (textures r))
  /\ handle (snd (textures r')) = handle (snd (textures r))
  /\ vertex_buffer_handle r' = vertex_buffer_handle r
  /\ program_id r' = program_id r
  /\ uniform_modelview_matrix r' = uniform_modelview_matrix r
  /\ uniform_color_texture r' = uniform_color_texture r.
Proof.
  intros Hrun.
  assert (Hhandles :
    handle (fst (textures r')) = handle (fst (textures r))
    /\ handle (snd (textures r')) = handle (snd (textures r))).
  { apply (present_frames_invariant
             (fun ts => handle (fst ts) = handle (fst (textures r))
                        /\ handle (snd ts) = handle (snd (textures r))))
      with (frames := frames) (r := r); auto.
    intros frame ts ts' i (H0 & H1) Hout.
    destruct (screen_update_keeps_handles frame ts ts' i Hout) as (E0 & E1).
    split; congruence. }
  destruct Hhandles as (H0 & H1).
  repeat (split; [assumption |]).
  clear H0 H1. revert r Hrun.
  induction frames as [| frame rest IH]; intros r Hrun.
  - simpl in Hrun. injection Hrun as <-. repeat split.
  - cbn [present_frames] in Hrun. rewrite outcome_bind in Hrun.
    destruct (outcome (SwapBuffers r frame)) as [r1 |] eqn:E1;
      [| discriminate].
    destruct (SwapBuffers_keeps_object_names r r1 frame E1)
      as (Hv & Hp & Hm & Hc).
    destruct (IH r1 Hrun) as (Hv' & Hp' & Hm' & Hc').
    repeat split; congruence.
Qed.

Lemma present_frames_keeps_object_names_witness :
  exists r' : RendererOpenGL,
    outcome (present_frames (abi := host64) (ext := sample_collaborators)
               sample_two_screens [sample_frame; next_frame; sample_frame])
    = Done r'
    /\ handle (fst (textures r')) = 7
    /\ handle (snd (textures r')) = 8
    /\ vertex_buffer_handle r' = 1
    /\ program_id r' = 2
    /\ uniform_modelview_matrix r' = 3
    /\ uniform_color_texture r' = 4.
Proof.
  eexists. split.
  - vm_compute. reflexivity.
  - apply (present_frames_keeps_object_names (abi := host64)
             (ext := sample_collaborators)
             [sample_frame; next_frame; sample_frame] sample_two_screens).
    vm_compute. reflexivity.
Defined.

(** ** The stored descriptor stays the one of the stored format *)

Lemma descriptor_consistent_table (t : TextureInfo) :
  descriptor_consistent t
  <-> documented_descriptor (format t) = Some (gl_format t, gl_type t).
Proof.
  unfold descriptor_consistent.
  destruct t as [h w ht f gf gt]. cbn [format gl_format gl_type].
  split.
  - intros (internal & E).
    destruct f; cbv [select_transfer ret UNIMPLEMENTED stop] in E;
      try discriminate; injection E as _ <- <-; reflexivity.
  - intros E.
    destruct f; cbn [documented_descriptor] in E; try discriminate;
      injection E as <- <-; eexists; reflexivity.
Qed.

Lemma descriptor_consistent_resized (t : TextureInfo) (w h : Z) :
  descriptor_consistent t ->
  descriptor_consistent (set_height (set_width t w) h).
Proof. rewrite !descriptor_consistent_table. now destruct t. Qed.

Lemma screen_update_keeps_consistency {abi : HostABI} {ext : Collaborators}
    (frame : Frame) (ts ts' : TextureInfo * TextureInfo) (i : Z) :
  descriptor_consistent (fst ts) /\ descriptor_consistent (snd ts) ->
  outcome (SwapBuffers_screen frame ts i) = Done ts' ->
  descriptor_consistent (fst ts') /\ descriptor_consistent (snd ts').
Proof.
  intros (H0 & H1) Hout.
  assert (Hi : descriptor_consistent (texture_at i ts))
    by (unfold texture_at; now destruct (i =? 0)).
  assert (Hset : forall v, descriptor_consistent v ->
            descriptor_consistent (fst (set_texture_at i v ts))
            /\ descriptor_consistent (snd (set_texture_at i v ts))).
  { intros v Hv. unfold set_texture_at. destruct (i =? 0); now split. }
  destruct (LCD.is_enabled (lcd_regs frame (lcd_color_addr i))) eqn:Hen.
  - rewrite (screen_update_fill frame ts i Hen) in Hout.
    injection Hout as <-. apply Hset.
    now apply descriptor_consistent_resized.
  - destruct (screen_update_framebuffer_done frame ts ts' i Hen Hout)
      as (t1 & Hready & _ & -> & _).
    destruct (ensureReady_done _ _ _ Hready) as (_ & _ & _ & _ & Hc & _).
    apply Hset. now apply Hc.
Qed.

(** X3.  If the transfer descriptor stored with each of the two textures is
    the one [ConfigureFramebufferTexture] assigns to the texture's stored
    format, this is still so after any sequence of frames presented to
    completion, whatever mix of colour fills, reallocations and plain
    uploads the frames cause. *)
Theorem present_frames_keeps_descriptors {abi : HostABI} {ext : Collaborators}
    (frames : list Frame) (r r' : RendererOpenGL) :
  descriptor_consistent (fst (textures r)) ->
  descriptor_consistent (snd (textures r)) ->
  outcome (present_frames r frames) = Done r' ->
  descriptor_consistent (fst (textures r'))
  /\ descriptor_consistent (snd (textures r')).
Proof.
  intros H0 H1 Hrun.
  apply (present_frames_invariant
           (fun ts => descriptor_consistent (fst ts)
                      /\ descriptor_consistent (snd ts)))
    with (frames := frames) (r := r); auto.
  intros frame ts ts' i. apply screen_update_keeps_consistency.
Qed.

Lemma present_frames_keeps_descriptors_witness :
  exists r' : RendererOpenGL,
    outcome (present_frames (abi := host64) (ext := sample_collaborators)
               sample_two_screens [sample_frame; next_frame; sample_frame])
    = Done r'
    /\ descriptor_consistent (fst (textures r'))
    /\ descriptor_consistent (snd (textures r')).
Proof.
  eexists. split.
  - vm_compute. reflexivity.
  - apply (present_frames_keeps_descriptors (abi := host64)
             (ext := sample_collaborators)
             [sample_frame; next_frame; sample_frame] sample_two_screens).
    + exists GL_RGB. reflexivity.
    + exists GL_RGBA. reflexivity.
    + vm_compute. reflexivity.
Defined.

(** The descriptor a consistent texture stores is the one
    [ConfigureFramebufferTexture] returns for a framebuffer of its format. *)
Lemma consistent_descriptor_is_configured (t t0 : TextureInfo)
    (framebuffer : GPU.FramebufferConfig) :
  descriptor_consistent t ->
  format t = GPU.color_format framebuffer ->
  returned_descriptor (ConfigureFramebufferTexture t0 framebuffer)
  = Some (gl_format t, gl_type t).
Proof.
  intros Hc Hf. apply descriptor_consistent_table in Hc.
  rewrite Hf in Hc. rewrite <- Hc.
  unfold returned_descriptor, ConfigureFramebufferTexture.
  destruct (GPU.color_format framebuffer); reflexivity.
Qed.

(** X4.  In a completed update of a screen from its framebuffer, starting
    from a texture whose stored descriptor is that of its stored format,
    exactly one pixel upload is issued.  It covers the framebuffer's
    width x height from offset (0, 0), reads from the pointer of the active
    buffer, and interprets the bytes with the transfer format and type that
    [ConfigureFramebufferTexture] assigns to the framebuffer's own pixel
    format, whether or not this frame reallocated the texture. *)
Theorem framebuffer_upload_uses_format_descriptor
    {abi : HostABI} {ext : Collaborators}
    (frame : Frame) (ts ts' : TextureInfo * TextureInfo) (i : Z) :
  descriptor_consistent (texture_at i ts) ->
  LCD.is_enabled (lcd_regs frame (lcd_color_addr i)) = false ->
  outcome (SwapBuffers_screen frame ts i) = Done ts' ->
  exists gl_f gl_t : GLenum,
    returned_descriptor
      (ConfigureFramebufferTexture (texture_at i ts)
         (framebuffer_config frame i)) = Some (gl_f, gl_t)
    /\ filter is_pixel_upload (trace (SwapBuffers_screen frame ts i))
       = [ glTexSubImage2D GL_TEXTURE_2D 0 0 0
             (GLsizei (GPU.width (framebuffer_config frame i)))
             (GLsizei (GPU.height (framebuffer_config frame i)))
             gl_f gl_t
             (host_pointer
                (GetPointer
                   (PhysicalToVirtualAddress
                      (active_address (framebuffer_config frame i))))) ].
Proof.
  intros Hc Hen Hout.
  destruct (screen_update_framebuffer_done frame ts ts' i Hen Hout)
    as (t1 & Hready & Hload & -> & Htr).
  destruct (ensureReady_done _ _ _ Hready)
    as (_ & _ & _ & Hf & Hc1 & _ & Hcases).
  exists (gl_format t1), (gl_type t1). split.
  - apply consistent_descriptor_is_configured; auto.
  - rewrite Htr. cbn [filter is_pixel_upload]. rewrite filter_app.
    assert (Hnone : filter is_pixel_upload
                      (trace (ensureReady (texture_at i ts)
                                (framebuffer_config frame i))) = []).
    { destruct Hcases as [(_ & _ & ->) | (_ & internal & ->)]; reflexivity. }
    rewrite Hnone.
    destruct (LoadFBToActiveGLTexture_cases (framebuffer_config frame i) t1)
      as [(ps & Hrun) | (why & Hrun)]; rewrite Hrun in *.
    + reflexivity.
    + discriminate.
Qed.

Lemma framebuffer_upload_uses_format_descriptor_witness :
  exists gl_f gl_t : GLenum,
    returned_descriptor
      (ConfigureFramebufferTexture sample_filled_texture
         (sample_framebuffer 240 400 GPU.RGB565 480)) = Some (gl_f, gl_t)
    /\ filter is_pixel_upload
         (trace (SwapBuffers_screen (abi := host64)
                   (ext := sample_collaborators) sample_frame
                   (sample_filled_texture, sample_bottom_texture) 0))
       = [ glTexSubImage2D GL_TEXTURE_2D 0 0 0 (GLsizei 240) (GLsizei 400)
             gl_f gl_t
             (host_pointer
                (GetPointer (Collaborators := sample_collaborators)
                   (PhysicalToVirtualAddress
                      (Collaborators := sample_collaborators)
                      (active_address
                         (sample_framebuffer 240 400 GPU.RGB565 480))))) ].
Proof.
  apply (framebuffer_upload_uses_format_descriptor (abi := host64)
           (ext := sample_collaborators) sample_frame
           (sample_filled_texture, sample_bottom_texture)
           (sample_texture, sample_bottom_texture) 0).
  - exists GL_RGB. reflexivity.
  - reflexivity.
  - reflexivity.
Defined.

(** ** Backend state across a frame *)

Lemma LoadFBToActiveGLTexture_resets {abi : HostABI} {ext : Collaborators}
    (framebuffer : GPU.FramebufferConfig) (t : TextureInfo) (s : GLState) :
  outcome (LoadFBToActiveGLTexture framebuffer t) = Done tt ->
  gl_run s (trace (LoadFBToActiveGLTexture framebuffer t))
  = {| texture_binding_2d := 0; unpack_row_length := 0 |}.
Proof.
  destruct (LoadFBToActiveGLTexture_cases framebuffer t)
    as [(ps & ->) | (why & ->)]; [intros _ | discriminate].
  unfold gl_run, trace. cbn [snd fold_left gl_step].
  now destruct (GLint ps <? 0).
Qed.

Lemma ensureReady_keeps_row_length (texture : TextureInfo)
    (framebuffer : GPU.FramebufferConfig) (s : GLState) :
  unpack_row_length (gl_run s (trace (ensureReady texture framebuffer)))
  = unpack_row_length s.
Proof.
  unfold ensureReady, ConfigureFramebufferTexture.
  destruct (texture_differs texture framebuffer); [| reflexivity].
  destruct (GPU.color_format framebuffer); reflexivity.
Qed.

(** The backend state a completed screen update leaves: nothing bound, and
    the row length reset unless the screen was colour-filled. *)
Lemma screen_update_gl_run {abi : HostABI} {ext : Collaborators}
    (frame : Frame) (ts ts' : TextureInfo * TextureInfo) (i : Z)
    (s : GLState) :
  outcome (SwapBuffers_screen frame ts i) = Done ts' ->
  gl_run s (trace (SwapBuffers_screen frame ts i))
  = {| texture_binding_2d := 0;
       unpack_row_length :=
         if LCD.is_enabled (lcd_regs frame (lcd_color_addr i))
         then unpack_row_length s else 0 |}.
Proof.
  intros Hout.
  destruct (LCD.is_enabled (lcd_regs frame (lcd_color_addr i))) eqn:Hen.
  - rewrite (screen_update_fill frame ts i Hen). reflexivity.
  - destruct (screen_update_framebuffer_done frame ts ts' i Hen Hout)
      as (t1 & _ & Hload & _ & ->).
    change (LCD_Read (lcd_color_addr i) :: ?t)
      with ([LCD_Read (lcd_color_addr i)] ++ t).
    rewrite !gl_run_app. now apply LoadFBToActiveGLTexture_resets.
Qed.

Lemma DrawScreens_gl_run {ext : Collaborators} (r : RendererOpenGL)
    (frame : Frame) (s : GLState) :
  gl_run s (trace (DrawScreens r frame))
  = {| texture_binding_2d := handle (snd (textures r));
       unpack_row_length := unpack_row_length s |}.
Proof. reflexivity. Qed.

(** X5.  A completed [SwapBuffers] leaves the bottom screen's texture bound
    to [GL_TEXTURE_2D] (the last draw binds it and nothing unbinds it), and
    leaves [GL_UNPACK_ROW_LENGTH] at 0 as soon as one of the two screens was
    updated from its framebuffer; when both screens were colour-filled the
    row length is what it was before the frame.  So the row-length override
    of an upload never outlives the frame. *)
Theorem SwapBuffers_backend_state {abi : HostABI} {ext : Collaborators}
    (r r' : RendererOpenGL) (frame : Frame) (s : GLState) :
  outcome (SwapBuffers r frame) = Done r' ->
  gl_run s (trace (SwapBuffers r frame))
  = {| texture_binding_2d := handle (snd (textures r));
       unpack_row_length :=
         if LCD.is_enabled (lcd_regs frame (lcd_color_addr 0))
            && LCD.is_enabled (lcd_regs frame (lcd_color_addr 1))
         then unpack_row_length s else 0 |}.
Proof.
  intros Hout.
  destruct (SwapBuffers_done r r' frame Hout)
    as (ts0 & ts1 & H0 & H1 & _ & ->).
  change (Window_MakeCurrent :: ?t) with ([Window_MakeCurrent] ++ t).
  rewrite !gl_run_app.
  rewrite (screen_update_gl_run frame _ ts1 1 _ H1).
  rewrite (screen_update_gl_run frame _ ts0 0 _ H0).
  rewrite DrawScreens_gl_run.
  destruct (screen_update_keeps_handles frame _ _ 0 H0) as (_ & E0).
  destruct (screen_update_keeps_handles frame _ _ 1 H1) as (_ & E1).
  cbn [gl_run fold_left gl_step set_textures textures unpack_row_length
       texture_binding_2d].
  rewrite E1, E0.
  destruct (LCD.is_enabled (lcd_regs frame (lcd_color_addr 0))),
           (LCD.is_enabled (lcd_regs frame (lcd_color_addr 1)));
    reflexivity.
Qed.

Lemma SwapBuffers_backend_state_witness :
  gl_run {| texture_binding_2d := 0; unpack_row_length := 512 |}
    (trace (SwapBuffers (abi := host64) (ext := sample_collaborators)
              sample_two_screens sample_frame))
  = {| texture_binding_2d := 8; unpack_row_length := 0 |}.
Proof.
  apply (SwapBuffers_backend_state (abi := host64)
           (ext := sample_collaborators) sample_two_screens
           (increment_current_frame
              (set_textures sample_two_screens
                 (sample_texture, sample_bottom_texture)))
           sample_frame
           {| texture_binding_2d := 0; unpack_row_length := 512 |}).
  reflexivity.
Defined.

(** ** Drawing and presenting *)

Lemma draw_bindings_app (s : GLState) (t1 t2 : list Event) :
  draw_bindings s (t1 ++ t2)
  = draw_bindings s t1 ++ draw_bindings (gl_run s t1) t2.
Proof.
  revert s. induction t1 as [| e t1 IH]; intros s; [reflexivity |].
  cbn [app draw_bindings]. unfold gl_run. cbn [fold_left].
  fold (gl_run (gl_step s e) t1).
  destruct e; rewrite IH; reflexivity.
Qed.

(** No screen update, however it ends, draws or presents. *)
Lemma screen_update_is_quiet {abi : HostABI} {ext : Collaborators}
    (frame : Frame) (ts : TextureInfo * TextureInfo) (i : Z) :
  forallb (fun e => negb (is_draw e || is_present e))
    (trace (SwapBuffers_screen frame ts i)) = true.
Proof.
  destruct (LCD.is_enabled (lcd_regs frame (lcd_color_addr i))) eqn:Hen.
  - rewrite (screen_update_fill frame ts i Hen). reflexivity.
  - unfold SwapBuffers_screen. rewrite Hen.
    rewrite trace_bind. cbn [call trace snd outcome fst app forallb].
    cbn [is_draw is_present orb negb andb].
    rewrite trace_bind, forallb_app. apply andb_true_intro. split.
    + unfold ensureReady, ConfigureFramebufferTexture.
      destruct (texture_differs _ _); [| reflexivity].
      destruct (GPU.color_format _); reflexivity.
    + destruct (outcome (ensureReady _ _)) as [t1 | why]; [| reflexivity].
      rewrite trace_bind, forallb_app. apply andb_true_intro. split.
      * destruct (LoadFBToActiveGLTexture_cases (framebuffer_config frame i) t1)
          as [(ps & ->) | (why & ->)]; reflexivity.
      * destruct (outcome (LoadFBToActiveGLTexture _ _)); reflexivity.
Qed.

Lemma quiet_draw_bindings (s : GLState) (t : list Event) :
  forallb (fun e => negb (is_draw e || is_present e)) t = true ->
  draw_bindings s t = [].
Proof.
  revert s. induction t as [| e t IH]; intros s; [reflexivity |].
  cbn [forallb]. intros H. apply andb_prop in H. destruct H as (He & Ht).
  destruct e; cbn [draw_bindings]; try discriminate; now apply IH.
Qed.

Lemma quiet_filter_present (t : list Event) :
  forallb (fun e => negb (is_draw e || is_present e)) t = true ->
  filter is_present t = [].
Proof.
  induction t as [| e t IH]; [reflexivity |].
  cbn [forallb filter]. intros H. apply andb_prop in H. destruct H as (He & Ht).
  destruct e; cbn [is_present]; try discriminate; now apply IH.
Qed.

(** X6.  A completed [SwapBuffers] issues exactly two draw calls, the first
    with the top screen's texture bound and the second with the bottom
    screen's, whatever was bound before the frame; and it hands the frame to
    the window exactly once, after both draws: the trace ends with
    [FinishFrame], [AddFrame], [PollEvents], [SwapBuffers], [BeginFrame]. *)
Theorem SwapBuffers_draws_both_screens {abi : HostABI} {ext : Collaborators}
    (r r' : RendererOpenGL) (frame : Frame) (s : GLState) :
  outcome (SwapBuffers r frame) = Done r' ->
  exists before : list Event,
    trace (SwapBuffers r frame)
    = before ++ [ Profiler_FinishFrame; Aggregator_AddFrame;
                  Window_PollEvents; Window_SwapBuffers;
                  Profiler_BeginFrame ]
    /\ draw_bindings s before
       = [ handle (fst (textures r)); handle (snd (textures r)) ]
    /\ filter is_present before = [].
Proof.
  intros Hout.
  destruct (SwapBuffers_done r r' frame Hout)
    as (ts0 & ts1 & H0 & H1 & _ & ->).
  destruct (screen_update_keeps_handles frame _ _ 0 H0) as (E00 & E01).
  destruct (screen_update_keeps_handles frame _ _ 1 H1) as (E10 & E11).
  pose proof (screen_update_is_quiet frame (textures r) 0) as Q0.
  pose proof (screen_update_is_quiet frame ts0 1) as Q1.
  exists (Window_MakeCurrent
          :: (trace (SwapBuffers_screen frame (textures r) 0)
              ++ trace (SwapBuffers_screen frame ts0 1))
          ++ trace (DrawScreens (set_textures r ts1) frame)).
  split; [| split].
  - rewrite <- app_comm_cons, <- !app_assoc. reflexivity.
  - cbn [draw_bindings gl_step].
    rewrite !draw_bindings_app.
    rewrite (quiet_draw_bindings _ _ Q0), (quiet_draw_bindings _ _ Q1).
    cbn [app]. rewrite <- E00, <- E10, <- E01, <- E11. reflexivity.
  - cbn [filter is_present]. rewrite !filter_app.
    rewrite (quiet_filter_present _ Q0), (quiet_filter_present _ Q1).
    reflexivity.
Qed.

Lemma SwapBuffers_draws_both_screens_witness :
  exists before : list Event,
    trace (SwapBuffers (abi := host64) (ext := sample_collaborators)
             sample_two_screens sample_frame)
    = before ++ [ Profiler_FinishFrame; Aggregator_AddFrame;
                  Window_PollEvents; Window_SwapBuffers;
                  Profiler_BeginFrame ]
    /\ draw_bindings sample_gl_state before = [7; 8]
    /\ filter is_present before = [].
Proof.
  apply (SwapBuffers_draws_both_screens (abi := host64)
           (ext := sample_collaborators) sample_two_screens
           (increment_current_frame
              (set_textures sample_two_screens
                 (sample_texture, sample_bottom_texture)))
           sample_frame sample_gl_state).
  reflexivity.
Defined.

(** X7.  A [SwapBuffers] that stops, at [UNIMPLEMENTED] or at a failed
    stride check of either screen, has issued no draw call and has not
    handed anything to the window: all it did was update zero, one or part
    of the two screens' textures. *)
Theorem stopped_frame_presents_nothing {abi : HostABI} {ext : Collaborators}
    (r : RendererOpenGL) (frame : Frame) (why : failure) :
  outcome (SwapBuffers r frame) = Stop why ->
  existsb is_draw (trace (SwapBuffers r frame)) = false
  /\ existsb is_present (trace (SwapBuffers r frame)) = false.
Proof.
  intros Hout.
  assert (Hquiet : forallb (fun e => negb (is_draw e || is_present e))
                     (trace (SwapBuffers r frame)) = true).
  { rewrite SwapBuffers_outcome in Hout.
    unfold SwapBuffers. rewrite trace_bind.
    cbn [call trace snd outcome fst app forallb is_draw is_present orb negb
         andb].
    rewrite trace_bind.
    destruct (outcome (for_each (SwapBuffers_screen frame) [0; 1] (textures r)))
      as [ts | why'] eqn:Efe; [discriminate |].
    rewrite app_nil_r. cbn [for_each].
    rewrite trace_bind, forallb_app, screen_update_is_quiet.
    destruct (outcome (SwapBuffers_screen frame (textures r) 0))
      as [ts0 | why0]; [| reflexivity].
    rewrite trace_bind, forallb_app, screen_update_is_quiet.
    destruct (outcome (SwapBuffers_screen frame ts0 1)); reflexivity. }
  clear Hout. induction (trace (SwapBuffers r frame)) as [| e t IH].
  - split; reflexivity.
  - cbn [forallb] in Hquiet. apply andb_prop in Hquiet.
    destruct Hquiet as (He & Ht). destruct (IH Ht) as (IHd & IHp).
    cbn [existsb]. rewrite IHd, IHp.
    destruct (is_draw e), (is_present e); try discriminate; split; reflexivity.
Qed.

Lemma stopped_frame_presents_nothing_witness :
  existsb is_draw
    (trace (SwapBuffers (abi := host64) (ext := sample_collaborators)
              sample_two_screens misaligned_frame)) = false
  /\ existsb is_present
       (trace (SwapBuffers (abi := host64) (ext := sample_collaborators)
                 sample_two_screens misaligned_frame)) = false.
Proof.
  apply (stopped_frame_presents_nothing (abi := host64)
           (ext := sample_collaborators) sample_two_screens misaligned_frame
           AssertionFailed).
  reflexivity.
Defined.

(** ** Presenting the same frame again *)

Lemma screen_update_other {abi : HostABI} {ext : Collaborators}
    (frame : Frame) (ts ts' : TextureInfo * TextureInfo) (i j : Z) :
  outcome (SwapBuffers_screen frame ts i) = Done ts' ->
  (j =? 0) <> (i =? 0) ->
  texture_at j ts' = texture_at j ts.
Proof.
  intros Hout Hj.
  destruct (LCD.is_enabled (lcd_regs frame (lcd_color_addr i))) eqn:Hen.
  - rewrite (screen_update_fill frame ts i Hen) in Hout.
    injection Hout as <-. now apply texture_at_other.
  - destruct (screen_update_framebuffer_done frame ts ts' i Hen Hout)
      as (t1 & _ & _ & -> & _).
    now apply texture_at_other.
Qed.

(** Updating a screen a second time from the same registers changes
    nothing, and allocates only if the screen is colour-filled. *)
Lemma screen_update_repeat {abi : HostABI} {ext : Collaborators}
    (frame : Frame) (ts ts' ts2 : TextureInfo * TextureInfo) (i : Z) :
  outcome (SwapBuffers_screen frame ts i) = Done ts' ->
  texture_at i ts2 = texture_at i ts' ->
  outcome (SwapBuffers_screen frame ts2 i) = Done ts2
  /\ allocations (trace (SwapBuffers_screen frame ts2 i))
     = if LCD.is_enabled (lcd_regs frame (lcd_color_addr i))
       then 1%nat else 0%nat.
Proof.
  intros Hout Hsame.
  destruct (LCD.is_enabled (lcd_regs frame (lcd_color_addr i))) eqn:Hen.
  - rewrite (screen_update_fill frame ts i Hen) in Hout.
    injection Hout as <-. rewrite texture_at_set in Hsame.
    rewrite (screen_update_fill frame ts2 i Hen). split; [| reflexivity].
    cbn [outcome fst]. f_equal.
    replace (set_height (set_width (texture_at i ts2) 1) 1)
      with (texture_at i ts2) by (rewrite Hsame; reflexivity).
    apply set_texture_at_same.
  - destruct (screen_update_framebuffer_done frame ts ts' i Hen Hout)
      as (t1 & Hready & Hload & -> & _).
    rewrite texture_at_set in Hsame.
    destruct (ensureReady_done _ _ _ Hready)
      as (_ & Hw & Hh & _ & _ & Hd & _).
    assert (Hagain : ensureReady (texture_at i ts2) (framebuffer_config frame i)
                     = (Done t1, [])).
    { unfold ensureReady. now rewrite Hsame, Hd. }
    unfold SwapBuffers_screen. rewrite Hen. split.
    + rewrite outcome_bind. cbn [call outcome fst].
      rewrite outcome_bind, Hagain. cbn [outcome fst].
      rewrite outcome_bind, Hload. cbn [ret outcome fst].
      rewrite <- Hw, <- Hh, set_size_same, <- Hsame.
      now rewrite set_texture_at_same.
    + rewrite trace_bind. cbn [call trace snd outcome fst].
      rewrite trace_bind, Hagain. cbn [trace snd outcome fst].
      rewrite trace_bind, Hload. cbn [ret trace snd app].
      rewrite app_nil_r.
      change (LCD_Read (lcd_color_addr i) :: ?t)
        with ([LCD_Read (lcd_color_addr i)] ++ t).
      rewrite allocations_app, LoadFBToActiveGLTexture_allocates_nothing.
      reflexivity.
Qed.

(** X8.  When a frame has been presented to completion and the same frame
    (same registers, same layout) is presented again, the second
    [SwapBuffers] completes, leaves both stored textures exactly as they
    are, and makes no allocation for a screen updated from its framebuffer:
    its only [glTexImage2D] calls are the 1x1 images of the colour-filled
    screens, one per such screen. *)
Theorem repeated_frame_allocates_only_fills {abi : HostABI} {ext : Collaborators}
    (r r1 : RendererOpenGL) (frame : Frame) :
  outcome (SwapBuffers r frame) = Done r1 ->
  exists r2 : RendererOpenGL,
    outcome (SwapBuffers r1 frame) = Done r2
    /\ textures r2 = textures r1
    /\ allocations (trace (SwapBuffers r1 frame)) = fill_screens frame.
Proof.
  intros Hout.
  destruct (SwapBuffers_done r r1 frame Hout)
    as (ts0 & ts1 & H0 & H1 & -> & _).
  assert (Hkeep : texture_at 0 ts1 = texture_at 0 ts0)
    by (apply (screen_update_other frame ts0 ts1 1 0 H1); discriminate).
  destruct (screen_update_repeat frame (textures r) ts0 ts1 0 H0 Hkeep)
    as (R0 & A0).
  destruct (screen_update_repeat frame ts0 ts1 ts1 1 H1 eq_refl)
    as (R1 & A1).
  assert (Hsecond :
    outcome (SwapBuffers (increment_current_frame (set_textures r ts1)) frame)
    = Done (increment_current_frame
              (set_textures (increment_current_frame (set_textures r ts1))
                 ts1))).
  { rewrite SwapBuffers_outcome. cbn [for_each textures increment_current_frame
                                       set_textures].
    rewrite outcome_bind, R0, outcome_bind, R1. reflexivity. }
  eexists. split; [exact Hsecond |]. split; [reflexivity |].
  destruct (SwapBuffers_done _ _ frame Hsecond)
    as (ts0' & ts1' & H0' & H1' & _ & ->).
  cbn [textures increment_current_frame set_textures] in H0'.
  rewrite R0 in H0'. injection H0' as <-.
  cbn [textures increment_current_frame set_textures].
  change (Window_MakeCurrent :: ?t) with ([Window_MakeCurrent] ++ t).
  rewrite !allocations_app, A0, A1. unfold fill_screens.
  destruct (LCD.is_enabled (lcd_regs frame (lcd_color_addr 0))),
           (LCD.is_enabled (lcd_regs frame (lcd_color_addr 1)));
    reflexivity.
Qed.

Lemma repeated_frame_allocates_only_fills_witness :
  exists r2 : RendererOpenGL,
    outcome (SwapBuffers (abi := host64) (ext := sample_collaborators)
               (increment_current_frame
                  (set_textures sample_two_screens
                     (sample_texture, sample_bottom_texture)))
               sample_frame) = Done r2
    /\ textures r2 = (sample_texture, sample_bottom_texture)
    /\ allocations
         (trace (SwapBuffers (abi := host64) (ext := sample_collaborators)
                   (increment_current_frame
                      (set_textures sample_two_screens
                         (sample_texture, sample_bottom_texture)))
                   sample_frame))
       = fill_screens sample_frame.
Proof.
  apply (repeated_frame_allocates_only_fills (abi := host64)
           (ext := sample_collaborators) sample_two_screens
           (increment_current_frame
              (set_textures sample_two_screens
                 (sample_texture, sample_bottom_texture)))
           sample_frame).
  reflexivity.
Defined.

(** ** Uploads stay inside the allocated image *)

Lemma tex_run_app {backend : Backend} (st : TexState) (t1 t2 : list Event) :
  tex_run st (t1 ++ t2) = tex_run (tex_run st t1) t2.
Proof. apply fold_left_app. Qed.

Lemma uploads_fit_app {backend : Backend} (st : TexState)
    (t1 t2 : list Event) :
  uploads_fit st (t1 ++ t2)
  = uploads_fit st t1 && uploads_fit (tex_run st t1) t2.
Proof.
  revert st. induction t1 as [| e t1 IH]; intros st; [reflexivity |].
  cbn [app uploads_fit]. rewrite IH, andb_assoc. reflexivity.
Qed.

(** The colour-fill calls, when the backend grants the 1x1 image, give the
    filled texture that image and leave the image of any texture of another
    name alone. *)
Lemma fill_images {backend : Backend} (st : TexState)
    (self other : TextureInfo) (reg : LCD.Reg) (data : pixels) :
  grants_image 1 1 = true ->
  handle self <> handle other ->
  tracks_image st other ->
  uploads_fit st
    [ LCD_Read reg; glBindTexture GL_TEXTURE_2D (handle self);
      glTexImage2D GL_TEXTURE_2D 0 GL_RGB 1 1 0 GL_RGB GL_UNSIGNED_BYTE data;
      glBindTexture GL_TEXTURE_2D 0 ] = true
  /\ tracks_image
       (tex_run st
          [ LCD_Read reg; glBindTexture GL_TEXTURE_2D (handle self);
            glTexImage2D GL_TEXTURE_2D 0 GL_RGB 1 1 0 GL_RGB GL_UNSIGNED_BYTE
              data;
            glBindTexture GL_TEXTURE_2D 0 ])
       (set_height (set_width self 1) 1)
  /\ tracks_image
       (tex_run st
          [ LCD_Read reg; glBindTexture GL_TEXTURE_2D (handle self);
            glTexImage2D GL_TEXTURE_2D 0 GL_RGB 1 1 0 GL_RGB GL_UNSIGNED_BYTE
              data;
            glBindTexture GL_TEXTURE_2D 0 ])
       other.
Proof.
  intros Hgrant Hne (Himg & Hw & Hh).
  unfold tracks_image, tex_run.
  cbn [fold_left tex_step uploads_fit upload_fits andb Z.leb Z.compare
       bound_texture image_size handle width height set_width set_height].
  rewrite Hgrant.
  cbn [bound_texture image_size].
  rewrite Z.eqb_refl.
  replace (handle other =? handle self) with false
    by (symmetry; apply Z.eqb_neq; congruence).
  repeat split; solve [assumption | lia].
Qed.

(** A completed upload into a texture whose image has the framebuffer's
    size is valid, and changes no image size. *)
Lemma upload_images {abi : HostABI} {ext : Collaborators}
    {backend : Backend} (st : TexState)
    (framebuffer : GPU.FramebufferConfig) (t1 : TextureInfo) :
  outcome (LoadFBToActiveGLTexture framebuffer t1) = Done tt ->
  image_size st (handle t1)
  = Some (GLsizei (GPU.width framebuffer), GLsizei (GPU.height framebuffer)) ->
  0 <= GLsizei (GPU.width framebuffer) ->
  0 <= GLsizei (GPU.height framebuffer) ->
  uploads_fit st (trace (LoadFBToActiveGLTexture framebuffer t1)) = true
  /\ image_size (tex_run st (trace (LoadFBToActiveGLTexture framebuffer t1)))
     = image_size st.
Proof.
  destruct (LoadFBToActiveGLTexture_cases framebuffer t1)
    as [(ps & ->) | (why & ->)]; [intros _ | discriminate].
  intros Himg Hw Hh. unfold tex_run, trace.
  cbn [snd fold_left tex_step uploads_fit upload_fits andb bound_texture
       image_size].
  rewrite Himg, !Z.add_0_l, !Z.leb_refl.
  apply Z.leb_le in Hw, Hh. rewrite Hw, Hh. split; reflexivity.
Qed.

(** One completed screen update, all of whose allocations are granted, keeps
    the images tracked and issues only valid uploads. *)
Lemma screen_update_images {abi : HostABI} {ext : Collaborators}
    {backend : Backend}
    (st : TexState) (frame : Frame) (ts ts' : TextureInfo * TextureInfo)
    (i : Z) :
  images_tracked st ts ->
  allocations_granted frame ->
  outcome (SwapBuffers_screen frame ts i) = Done ts' ->
  uploads_fit st (trace (SwapBuffers_screen frame ts i)) = true
  /\ images_tracked (tex_run st (trace (SwapBuffers_screen frame ts i))) ts'.
Proof.
  intros (Hne & T0 & T1) Hgranted Hout.
  specialize (Hgranted i).
  (* the updated texture and the other one *)
  set (self := texture_at i ts).
  set (other := if i =? 0 then snd ts else fst ts).
  assert (Hso : handle self <> handle other)
    by (subst self other; unfold texture_at; destruct (i =? 0); congruence).
  assert (Tself : tracks_image st self)
    by (subst self; unfold texture_at; now destruct (i =? 0)).
  assert (Tother : tracks_image st other)
    by (subst other; now destruct (i =? 0)).
  assert (Hput : forall st' v,
            handle v = handle self ->
            tracks_image st' v -> tracks_image st' other ->
            images_tracked st' (set_texture_at i v ts)).
  { intros st' v Hv Tv To. subst self other.
    unfold images_tracked, set_texture_at, texture_at in *.
    destruct (i =? 0); cbn [fst snd]; repeat split;
      solve [apply Tv | apply To | congruence]. }
  destruct (LCD.is_enabled (lcd_regs frame (lcd_color_addr i))) eqn:Hen.
  - rewrite (screen_update_fill frame ts i Hen) in *.
    injection Hout as <-. fold self. cbn [trace snd].
    destruct (fill_images st self other (lcd_color_addr i)
                (local_array
                   [ u8 (LCD.color_r (lcd_regs frame (lcd_color_addr i)));
                     u8 (LCD.color_g (lcd_regs frame (lcd_color_addr i)));
                     u8 (LCD.color_b (lcd_regs frame (lcd_color_addr i))) ])
                Hgranted Hso Tother) as (Hfit & Ts & To).
    split; [exact Hfit |]. now apply Hput.
  - destruct Hgranted as (Hw & Hh & Hgrant).
    assert (Ew : GLsizei (GPU.width (framebuffer_config frame i))
                 = GPU.width (framebuffer_config frame i))
      by now apply wrap_signed_small.
    assert (Eh : GLsizei (GPU.height (framebuffer_config frame i))
                 = GPU.height (framebuffer_config frame i))
      by now apply wrap_signed_small.
    destruct (screen_update_framebuffer_done frame ts ts' i Hen Hout)
      as (t1 & Hready & Hload & -> & ->).
    fold self in Hready |- *.
    destruct (ensureReady_done _ _ _ Hready)
      as (Hh1 & Hw1 & Hht1 & _ & _ & _ & Hcases).
    change (LCD_Read (lcd_color_addr i) :: ?t)
      with ([LCD_Read (lcd_color_addr i)] ++ t).
    rewrite !uploads_fit_app, !tex_run_app.
    change (tex_run st [LCD_Read (lcd_color_addr i)]) with st.
    cbn [uploads_fit upload_fits andb].
    set (st1 := tex_run st (trace (ensureReady self (framebuffer_config frame i)))).
    assert (Hst1 : uploads_fit st
                     (trace (ensureReady self (framebuffer_config frame i)))
                   = true
                   /\ image_size st1 (handle t1)
                      = Some (width t1, height t1)
                   /\ image_size st1 (handle other)
                      = image_size st (handle other)).
    { subst st1.
      destruct Hcases as [(_ & -> & ->) | (_ & internal & ->)].
      - split; [reflexivity |]. split; [apply Tself | reflexivity].
      - unfold tex_run.
        cbn [fold_left tex_step uploads_fit upload_fits andb bound_texture
             image_size].
        rewrite Ew, Eh, Hgrant.
        replace (0 <=? GPU.width (framebuffer_config frame i)) with true
          by (symmetry; apply Z.leb_le; lia).
        replace (0 <=? GPU.height (framebuffer_config frame i)) with true
          by (symmetry; apply Z.leb_le; lia).
        cbn [andb image_size]. rewrite Hh1, Z.eqb_refl.
        replace (handle other =? handle self) with false
          by (symmetry; apply Z.eqb_neq; congruence).
        rewrite Hw1, Hht1, Ew, Eh. repeat split. }
    destruct Hst1 as (Hfit1 & Himg1 & Hoth1).
    rewrite Hw1, Hht1 in Himg1.
    destruct (upload_images st1 (framebuffer_config frame i) t1 Hload Himg1)
      as (Hfit2 & Hsame); [lia | lia |].
    rewrite Hfit1, Hfit2. split; [reflexivity |].
    apply Hput; [exact Hh1 | |].
    + unfold tracks_image. rewrite Hsame, Himg1, Hw1, Hht1.
      repeat split; lia.
    + unfold tracks_image. rewrite Hsame, Hoth1. exact Tother.
Qed.

Lemma DrawScreens_images {ext : Collaborators} {backend : Backend}
    (st : TexState) (r : RendererOpenGL) (frame : Frame) :
  uploads_fit st (trace (DrawScreens r frame)) = true
  /\ image_size (tex_run st (trace (DrawScreens r frame))) = image_size st.
Proof. split; reflexivity. Qed.

Lemma images_tracked_same_images (st st' : TexState)
    (ts : TextureInfo * TextureInfo) :
  image_size st' = image_size st ->
  images_tracked st ts -> images_tracked st' ts.
Proof.
  unfold images_tracked, tracks_image. intros ->. tauto.
Qed.

Lemma SwapBuffers_images {abi : HostABI} {ext : Collaborators}
    {backend : Backend}
    (st : TexState) (r r' : RendererOpenGL) (frame : Frame) :
  images_tracked st (textures r) ->
  allocations_granted frame ->
  outcome (SwapBuffers r frame) = Done r' ->
  uploads_fit st (trace (SwapBuffers r frame)) = true
  /\ images_tracked (tex_run st (trace (SwapBuffers r frame))) (textures r').
Proof.
  intros Hinv Hgranted Hout.
  destruct (SwapBuffers_done r r' frame Hout)
    as (ts0 & ts1 & H0 & H1 & -> & ->).
  destruct (screen_update_images st frame _ _ 0 Hinv Hgranted H0)
    as (Hfit0 & Hinv0).
  destruct (screen_update_images _ frame _ _ 1 Hinv0 Hgranted H1)
    as (Hfit1 & Hinv1).
  change (Window_MakeCurrent :: ?t) with ([Window_MakeCurrent] ++ t).
  rewrite !uploads_fit_app, !tex_run_app.
  change (tex_run st [Window_MakeCurrent]) with st.
  rewrite Hfit0, Hfit1.
  destruct (DrawScreens_images
              (tex_run (tex_run st (trace (SwapBuffers_screen frame (textures r) 0)))
                 (trace (SwapBuffers_screen frame ts0 1)))
              (set_textures r ts1) frame) as (HfitD & HsameD).
  rewrite HfitD. split; [reflexivity |].
  cbn [textures increment_current_frame set_textures].
  eapply images_tracked_same_images; [| exact Hinv1].
  rewrite <- HsameD. reflexivity.
Qed.

Example oversized_framebuffer_is_uploaded_outside_its_image :
  outcome (SwapBuffers (abi := host64) (ext := sample_collaborators)
             sample_two_screens oversized_frame)
  = Done (increment_current_frame
            (set_textures sample_two_screens
               ({| handle := 7; width := 16384; height := 16384;
                   format := GPU.RGBA8; gl_format := GL_RGBA;
                   gl_type := GL_UNSIGNED_INT_8_8_8_8 |},
                {| handle := 8; width := 16384; height := 16384;
                   format := GPU.RGBA8; gl_format := GL_RGBA;
                   gl_type := GL_UNSIGNED_INT_8_8_8_8 |})))
  /\ uploads_fit (backend := sample_backend) sample_tex_state
       (trace (SwapBuffers (abi := host64) (ext := sample_collaborators)
                 sample_two_screens oversized_frame)) = false.
Proof. split; reflexivity. Qed.

(** X9.  Suppose the two textures have different handles and, for each, the
    stored width and height are the size of the image the backend holds for
    that handle.  Then along any sequence of frames presented to completion
    in which the backend grants every allocation the frames request (the
    requested sizes do not exceed its limits, and fit [GLsizei]), every
    [glTexSubImage2D] is issued while the bound texture has an image and
    the uploaded region lies inside it, and the stored sizes still describe
    the backend's images afterwards.  When the backend refuses an
    allocation the renderer does not notice, and the conclusion can fail
    (see the example above). *)
Theorem uploads_stay_inside_images {abi : HostABI} {ext : Collaborators}
    {backend : Backend}
    (frames : list Frame) (st : TexState) (r r' : RendererOpenGL) :
  images_tracked st (textures r) ->
  Forall allocations_granted frames ->
  outcome (present_frames r frames) = Done r' ->
  uploads_fit st (trace (present_frames r frames)) = true
  /\ images_tracked (tex_run st (trace (present_frames r frames)))
       (textures r').
Proof.
  intros Hinv Hgranted. revert st r Hinv.
  induction Hgranted as [| frame rest Hframe _ IH]; intros st r Hinv Hrun.
  - simpl in Hrun. injection Hrun as <-. split; [reflexivity | exact Hinv].
  - cbn [present_frames] in *. rewrite outcome_bind in Hrun.
    destruct (outcome (SwapBuffers r frame)) as [r1 |] eqn:E1;
      [| discriminate].
    destruct (SwapBuffers_images st r r1 frame Hinv Hframe E1)
      as (Hfit1 & Hinv1).
    destruct (IH _ r1 Hinv1 Hrun) as (Hfit & Hinv').
    rewrite trace_bind, E1, uploads_fit_app, tex_run_app, Hfit1, Hfit.
    split; [reflexivity | exact Hinv'].
Qed.

Lemma uploads_stay_inside_images_witness :
  exists r' : RendererOpenGL,
    outcome (present_frames (abi := host64) (ext := sample_collaborators)
               sample_two_screens [sample_frame; next_frame; sample_frame])
    = Done r'
    /\ uploads_fit (backend := sample_backend) sample_tex_state
         (trace (present_frames (abi := host64) (ext := sample_collaborators)
                   sample_two_screens
                   [sample_frame; next_frame; sample_frame])) = true
    /\ images_tracked
         (tex_run (backend := sample_backend) sample_tex_state
            (trace (present_frames (abi := host64)
                      (ext := sample_collaborators) sample_two_screens
                      [sample_frame; next_frame; sample_frame])))
         (textures r').
Proof.
  eexists. split.
  - vm_compute. reflexivity.
  - apply (uploads_stay_inside_images (abi := host64)
             (ext := sample_collaborators) (backend := sample_backend)
             [sample_frame; next_frame; sample_frame] sample_tex_state
             sample_two_screens).
    + repeat split; simpl; lia.
    + apply Forall_cons; [| apply Forall_cons; [| apply Forall_cons;
        [| apply Forall_nil]]];
        intros i; unfold lcd_color_addr; destruct (i =? 0); simpl;
        repeat split; lia.
    + vm_compute. reflexivity.
Defined.

(** ** What the stride checks look at *)

(** X10.  Whether [LoadFBToActiveGLTexture] passes its checks, and how it
    stops if it does not, depends only on the framebuffer's stride and pixel
    format: two configurations that agree on these two fields have the same
    outcome, whatever their width, height, buffer addresses and selector,
    and whatever texture is uploaded to.  In particular the checks never
    compare the stride with the width. *)
Theorem stride_checks_ignore_size {abi : HostABI} {ext : Collaborators}
    (fb fb' : GPU.FramebufferConfig) (t t' : TextureInfo) :
  GPU.stride fb = GPU.stride fb' ->
  GPU.color_format fb = GPU.color_format fb' ->
  outcome (LoadFBToActiveGLTexture fb t)
  = outcome (LoadFBToActiveGLTexture fb' t').
Proof.
  intros Hs Hf.
  unfold LoadFBToActiveGLTexture, stride_in_pixels, ASSERT.
  rewrite Hs, Hf.
  destruct (u32 (int (BytesPerPixel (GPU.color_format fb'))) =? 0);
    [reflexivity |].
  cbv [bind call ret stop app outcome fst].
  repeat match goal with
         | |- context [if ?c then _ else _] => destruct c
         end; reflexivity.
Qed.

Lemma stride_checks_ignore_size_witness :
  outcome (LoadFBToActiveGLTexture (abi := host64)
             (ext := sample_collaborators)
             (sample_framebuffer 240 400 GPU.RGB565 480) sample_texture)
  = outcome (LoadFBToActiveGLTexture (abi := host64)
               (ext := sample_collaborators)
               (sample_framebuffer 1000 1 GPU.RGB565 480)
               sample_bottom_texture).
Proof.
  apply (stride_checks_ignore_size (abi := host64)
           (ext := sample_collaborators)
           (sample_framebuffer 240 400 GPU.RGB565 480)
           (sample_framebuffer 1000 1 GPU.RGB565 480)
           sample_texture sample_bottom_texture).
  - reflexivity.
  - reflexivity.
Defined.

(** ** Where a frame can stop *)

Lemma LoadFBToActiveGLTexture_stop_kind {abi : HostABI} {ext : Collaborators}
    (framebuffer : GPU.FramebufferConfig) (t : TextureInfo) (why : failure) :
  outcome (LoadFBToActiveGLTexture framebuffer t) = Stop why ->
  why = AssertionFailed \/ why = DivisionByZero.
Proof.
  unfold LoadFBToActiveGLTexture, stride_in_pixels, ASSERT.
  destruct (u32 (int (BytesPerPixel (GPU.color_format framebuffer))) =? 0).
  - cbv [bind call ret stop app outcome fst]. intros E. injection E as <-.
    now right.
  - cbv [bind call ret stop app outcome fst].
    repeat match goal with
           | |- context [if ?c then _ else _] => destruct c
           end; intros E; try discriminate; injection E as <-; now left.
Qed.

Lemma ensureReady_stop (texture : TextureInfo)
    (framebuffer : GPU.FramebufferConfig) (why : failure) :
  outcome (ensureReady texture framebuffer) = Stop why ->
  why = Unimplemented
  /\ GPU.supported (GPU.color_format framebuffer) = false
  /\ texture_differs texture framebuffer = true.
Proof.
  unfold ensureReady, ConfigureFramebufferTexture.
  destruct (texture_differs texture framebuffer); [| discriminate].
  destruct (GPU.color_format framebuffer); try discriminate.
  intros E. injection E as <-. repeat split.
Qed.

(** X11.  [SwapBuffers] can stop only in the update of a screen whose
    colour fill is disabled, and only in two ways: at [UNIMPLEMENTED], when
    that screen's framebuffer has a pixel format outside the five and the
    reallocation test fired; or at a check of the upload (never at
    [UNIMPLEMENTED]), in which case uploading that framebuffer stops the
    same way with any texture.  A frame whose two screens are colour-filled
    therefore always completes. *)
Theorem SwapBuffers_stops_only_in_framebuffer_update
    {abi : HostABI} {ext : Collaborators}
    (r : RendererOpenGL) (frame : Frame) (why : failure) :
  outcome (SwapBuffers r frame) = Stop why ->
  exists i : Z,
    (i = 0 \/ i = 1)
    /\ LCD.is_enabled (lcd_regs frame (lcd_color_addr i)) = false
    /\ ((why = Unimplemented
         /\ GPU.supported (GPU.color_format (framebuffer_config frame i))
            = false)
        \/ (why <> Unimplemented
            /\ forall t : TextureInfo,
                 outcome (LoadFBToActiveGLTexture (framebuffer_config frame i) t)
                 = Stop why)).
Proof.
  intros Hout. rewrite SwapBuffers_outcome in Hout. cbn [for_each] in Hout.
  assert (Hscreen : forall ts i,
    outcome (SwapBuffers_screen frame ts i) = Stop why ->
    LCD.is_enabled (lcd_regs frame (lcd_color_addr i)) = false
    /\ ((why = Unimplemented
         /\ GPU.supported (GPU.color_format (framebuffer_config frame i))
            = false)
        \/ (why <> Unimplemented
            /\ forall t : TextureInfo,
                 outcome (LoadFBToActiveGLTexture (framebuffer_config frame i) t)
                 = Stop why))).
  { intros ts i Hstop.
    destruct (LCD.is_enabled (lcd_regs frame (lcd_color_addr i))) eqn:Hen.
    - rewrite (screen_update_fill frame ts i Hen) in Hstop. discriminate.
    - split; [reflexivity |].
      unfold SwapBuffers_screen in Hstop. rewrite Hen in Hstop.
      rewrite outcome_bind in Hstop. cbn [call outcome fst] in Hstop.
      rewrite outcome_bind in Hstop.
      destruct (outcome (ensureReady (texture_at i ts)
                           (framebuffer_config frame i)))
        as [t1 | why1] eqn:E1.
      + right. rewrite outcome_bind in Hstop.
        destruct (outcome (LoadFBToActiveGLTexture
                             (framebuffer_config frame i) t1))
          as [[] | why2] eqn:E2; [discriminate |].
        injection Hstop as ->.
        split.
        * destruct (LoadFBToActiveGLTexture_stop_kind _ _ _ E2) as [-> | ->];
            discriminate.
        * intros t. rewrite <- E2.
          apply LoadFBToActiveGLTexture_outcome_any_texture.
      + injection Hstop as ->.
        destruct (ensureReady_stop _ _ _ E1) as (-> & Hsup & _).
        left. now split. }
  rewrite outcome_bind in Hout.
  destruct (outcome (SwapBuffers_screen frame (textures r) 0))
    as [ts0 | why0] eqn:E0.
  - rewrite outcome_bind in Hout.
    destruct (outcome (SwapBuffers_screen frame ts0 1))
      as [ts1 | why1] eqn:E1; [discriminate |].
    injection Hout as ->.
    exists 1. split; [now right |]. now apply (Hscreen ts0).
  - injection Hout as ->.
    exists 0. split; [now left |]. now apply (Hscreen (textures r)).
Qed.

Lemma SwapBuffers_stops_only_in_framebuffer_update_witness :
  exists i : Z,
    (i = 0 \/ i = 1)
    /\ LCD.is_enabled (lcd_regs misaligned_frame (lcd_color_addr i)) = false
    /\ ((AssertionFailed = Unimplemented
         /\ GPU.supported
              (GPU.color_format (framebuffer_config misaligned_frame i))
            = false)
        \/ (AssertionFailed <> Unimplemented
            /\ forall t : TextureInfo,
                 outcome
                   (LoadFBToActiveGLTexture (abi := host64)
                      (ext := sample_collaborators)
                      (framebuffer_config misaligned_frame i) t)
                 = Stop AssertionFailed)).
Proof.
  apply (SwapBuffers_stops_only_in_framebuffer_update (abi := host64)
           (ext := sample_collaborators) sample_two_screens misaligned_frame
           AssertionFailed).
  reflexivity.
Defined.
